(** * TidyBlocks transforms (libs/transform.js): a shallow embedding

    The pipeline stages of TidyBlocks are JavaScript classes derived from
    [TransformBase].  Each stage is built by a validating constructor, is
    compared with [equal] and is executed with [run(env, df)], which works on
    a dataframe and on a shared, mutable environment.

    The embedding follows the source class by class.  Constructors are
    fallible functions into [result]; [run] lives in a state-and-exception
    monad whose state holds the two objects a run can write to: the
    environment and the transform itself ([this]). *)

From stdpp Require Import base decidable option list strings gmap.
From Stdlib Require Import ZArith QArith Qcanon Qround Lia.

Set Default Proof Using "Type".
#[local] Set Warnings "-register-all".
Open Scope string_scope.
Open Scope Z_scope.

(** ** JavaScript data *)

(** Numbers: the finite ones as exact rationals in canonical form, NaN and
    the two infinities.  The only arithmetic of the file is [k + 1] on an
    array index, which is exact in JavaScript too.  The two zeros are one:
    neither [===] nor SameValueZero tells them apart. *)
Inductive double :=
| Finite (q : Qc)
| NaN
| Infinity (positive : bool).

#[global] Instance double_eq_dec : EqDecision double.
Proof. solve_decision. Defined.

(** The values the file handles: what a dataframe cell holds, what reading
    a property yields and what a constructor may be handed.  [VInherited key]
    is the object [Object.prototype[key]], which reading [key] off a plain
    object yields when the object has no property of its own under [key]; it
    is known by its identity only. *)
Inductive value :=
| VUndefined
| VNull
| VBool (b : bool)
| VNum (n : double)
| VStr (s : string)
| VInherited (key : string).

#[global] Instance value_eq_dec : EqDecision value.
Proof. solve_decision. Defined.

(** An integer as a JavaScript number. *)
Definition number (z : Z) : double := Finite (Q2Qc (inject_Z z)).

(** [n > 0] *)
Definition greater_than_zero (n : double) : bool :=
  match n with
  | Finite q => bool_decide (Q2Qc (inject_Z 0) < q)%Qc
  | NaN => false
  | Infinity positive => positive
  end.

(** [x === y]: NaN is not equal to itself; everything else compares as
    SameValueZero does, which is Leibniz equality here. *)
Definition strict_equal (x y : value) : bool :=
  match x with
  | VNum NaN => false
  | _ => bool_decide (x = y)
  end.

(** The names [Object.prototype] defines: a plain object answers [in] and
    [[]] for them although it has no such property of its own. *)
Definition Object_prototype : list string :=
  ["constructor"; "__defineGetter__"; "__defineSetter__"; "hasOwnProperty";
   "__lookupGetter__"; "__lookupSetter__"; "isPrototypeOf";
   "propertyIsEnumerable"; "toString"; "valueOf"; "__proto__";
   "toLocaleString"].

(** [typeof v === 'string'] *)
Definition is_string (v : value) : bool :=
  match v with VStr _ => true | _ => false end.

(** [typeof v === 'number'] *)
Definition is_number (v : value) : bool :=
  match v with VNum _ => true | _ => false end.

(** [typeof v === 'boolean'] *)
Definition is_boolean (v : value) : bool :=
  match v with VBool _ => true | _ => false end.

(** JavaScript truthiness of a primitive, as in [name && ...]. *)
Definition truthy (v : value) : bool :=
  match v with
  | VUndefined | VNull => false
  | VBool b => b
  | VNum (Finite q) => negb (bool_decide (q = Q2Qc (inject_Z 0)))
  | VNum NaN => false
  | VNum (Infinity _) => true
  | VStr s => negb (bool_decide (s = ""))
  | VInherited _ => true
  end.

(** A row of a dataframe: an object used as a map from column name to cell. *)
Abbreviation Row := (gmap string value).

(** [row[col]]: the property of the row itself when it has one, else the
    one [Object.prototype] defines, else [undefined]. *)
Definition row_get (col : string) (row : Row) : value :=
  match row !! col with
  | Some v => v
  | None => if bool_decide (col ∈ Object_prototype) then VInherited col
            else VUndefined
  end.

(** [row[col] = v] for a primitive [v]: under [__proto__] the assignment
    calls the setter of [Object.prototype], which ignores a primitive, so the
    row gets no property. *)
Definition row_set (col : string) (v : value) (row : Row) : Row :=
  if bool_decide (col = "__proto__") then row else <[col := v]> row.

(** Object literals (the chart specifications).  Keys keep their insertion
    order, so an object is an association list.  [JRows] is an array of row
    objects, which is what [df.data] is. *)
Inductive json :=
| JPrim (v : value)
| JRows (rows : list Row)
| JArr (items : list json)
| JObj (fields : list (string * json)).

Abbreviation JStr s := (JPrim (VStr s)).
Abbreviation JNum n := (JPrim (VNum n)).
Abbreviation JNull := (JPrim VNull).

(** [obj[key]] on the fields of an object. *)
Fixpoint obj_get (key : string) (fields : list (string * json)) : option json :=
  match fields with
  | [] => None
  | (k, v) :: rest => if bool_decide (k = key) then Some v else obj_get key rest
  end.

(** [obj[key] = v]: an existing key keeps its place, a new one goes last. *)
Fixpoint obj_set (key : string) (v : json) (fields : list (string * json))
  : list (string * json) :=
  match fields with
  | [] => [(key, v)]
  | (k, w) :: rest =>
      if bool_decide (k = key) then (k, v) :: rest
      else (k, w) :: obj_set key v rest
  end.

(** [Object.assign(target, source)] on the fields of two objects. *)
Definition assign (target source : list (string * json)) : list (string * json) :=
  foldl (fun acc kv => obj_set kv.1 kv.2 acc) target source.

(** [Object.assign({}, ...sources)] *)
Definition Object_assign (sources : list (list (string * json))) : json :=
  JObj (foldl assign [] sources).

(** ToLength: NaN is 0, the number is truncated to an integer and clamped
    to the range from 0 to 2^53 - 1. *)
Definition ToLength (len : double) : Z :=
  match len with
  | Finite q => Z.min (Z.max (Qfloor q) 0) (2 ^ 53 - 1)
  | NaN => 0
  | Infinity positive => if positive then 2 ^ 53 - 1 else 0
  end.

(** [Array.from(new Set(xs))]: the distinct elements in order of first
    insertion. *)
Definition Set_add (known : list value) (x : value) : list value :=
  if bool_decide (x ∈ known) then known else known ++ [x].

Definition Set_from (xs : list value) : list value :=
  foldl Set_add [] xs.

(** ** Exceptions *)

Inductive exn :=
| Error (message : string)              (* [throw new Error(message)] *)
| TypeError                             (* raised by the language itself *)
| RangeError                            (* an invalid array length *)
| DependencyUnavailable (name : string) (* raised by the environment *).

#[global] Instance exn_eq_dec : EqDecision exn.
Proof. solve_decision. Defined.

Inductive result (A : Type) :=
| Ok (a : A)
| Throw (e : exn).
Arguments Ok {A} a.
Arguments Throw {A} e.

#[global] Instance result_ret : MRet result := fun A a => Ok a.
#[global] Instance result_bind : MBind result := fun A B f r =>
  match r with
  | Ok a => f a
  | Throw e => Throw e
  end.

(** [Array.from({length: len}, (v, k) => f k)]: the array is created with
    the length ToLength gives, which is a RangeError from 2^32 on; below that
    the elements are [f 0], [f 1], ... (memory is not modelled). *)
Definition Array_from_length {A} (len : double) (f : nat -> A) : result (list A) :=
  if 2 ^ 32 <=? ToLength len then Throw RangeError
  else Ok (map f (seq 0 (Z.to_nat (ToLength len)))).

(** The failures the specification names are the plain [Error]s of the
    checks in the source, told apart by their message. *)
Definition InvariantViolation (e : exn) : bool :=
  bool_decide (e = Error "Cannot provide input dataframe to reader")
  || bool_decide (e = Error "Cannot provide input dataframe to join").

Definition InvalidGrouping (e : exn) : bool :=
  bool_decide (e = Error "Must have exactly two labels for data").

Definition UnknownOperation (e : exn) : bool :=
  match e with
  | Error m => bool_decide (String.prefix "Unknown summarization operation " m = true)
  | _ => false
  end.

(** Modelled from the spec: [util.check(condition, message)] of ./util,
    which is not among the sources: the run-time and construction-time
    checks fail with the given message unless the condition holds. *)
Definition check (condition : bool) (message : string) : result unit :=
  if condition then Ok tt else Throw (Error message).

(** [util.check(typeof v === 'string', message)], handing on the string. *)
Definition expect_string (v : value) (message : string) : result string :=
  match v with
  | VStr s => Ok s
  | _ => Throw (Error message)
  end.

(** ** Dataframes and the environment *)

(** Modelled from the spec: the DataFrame class of ./dataframe, which is not
    among the sources.  A dataframe is a tabular value; the source reads its
    rows as [df.data] and its column information as [loaded.columns], and
    [new DataFrame(data, columns)] materializes one from the two ([columns]
    is [None] where the source omits the argument). *)
Record DataFrame := new_DataFrame {
  data : list Row;
  columns : option (list string)
}.

(** The [df] argument and the return value of [run]: [undefined], [null] or
    a dataframe. *)
Inductive dfval :=
| DUndefined
| DNull
| DFrame (d : DataFrame).

(** Modelled from the spec: the Environment of ./env, which is not among the
    sources: "a mapping from dataset name to realized dataset, an append-only
    execution log, a mapping from label to plot specification, a mapping
    from label to statistic/p-value". *)
Record Env := {
  datasets : gmap string DataFrame;
  log : list string;
  plots : gmap string json;
  stats : gmap string value
}.

Definition emptyEnv : Env :=
  {| datasets := ∅; log := []; plots := ∅; stats := ∅ |}.

(** ** Collaborators outside the file

    The expression classes (./expr), the dataframe operations
    (./dataframe), the summarizers (./summarize) and the statistics library
    (simple-statistics) are used by the transforms but defined elsewhere.
    They are parameters of the development.  Each may throw. *)
Class External := {
  (** instances of [ExprBase] *)
  Expr : Type;
  (** [e.equal(other)], where [other] is [None] when the field is missing *)
  expr_equal : Expr -> option Expr -> bool;
  (** the summarizer objects *)
  Summarizer : Type;
  (** The properties the module object [Summarize] has of its own (what
      ./summarize exports): for each name, what [new Summarize[name](column)]
      does.  Being a plain object, [Summarize] inherits the names of
      [Object_prototype] beside them. *)
  Summarize : gmap string (string -> result Summarizer);
  df_drop : list string -> DataFrame -> result DataFrame;
  df_filter : Expr -> DataFrame -> result DataFrame;
  df_groupBy : list string -> DataFrame -> result DataFrame;
  (** [left.join(leftName, leftCol, right, rightName, rightCol)], the
      receiver first *)
  df_join : DataFrame -> string -> value -> DataFrame -> string -> value ->
            result DataFrame;
  df_mutate : string -> Expr -> DataFrame -> result DataFrame;
  df_select : list string -> DataFrame -> result DataFrame;
  df_sort : list string -> bool -> DataFrame -> result DataFrame;
  (** [df.summarize(summarizer)]; the argument is a summarizer ([inl]) or,
      when the operation was [constructor], the String object
      [new Object(column)] ([inr]) *)
  df_summarize : Summarizer + string -> DataFrame -> result DataFrame;
  df_ungroup : DataFrame -> result DataFrame;
  df_unique : list string -> DataFrame -> result DataFrame;
  (** [stats.tTest(samples, mean)] *)
  tTest : list value -> double -> result value;
  (** [stats.tTestTwoSample(left, right, difference)] *)
  tTestTwoSample : list value -> list value -> double -> result value
}.

(** A small instance to run the definitions on: expressions are column
    references, summarizers count rows.  The two tests follow
    simple-statistics in when they answer [null], throw or answer a number:
    [tTest] throws on an empty sample (its mean needs a data point);
    [tTestTwoSample] answers [null] when a sample is empty and throws when a
    sample has a single point (its sample variance needs two).  The number
    they answer otherwise stands in for the statistic, which is not
    rational. *)
Definition sampleExternal : External := {|
  Expr := string;
  expr_equal e o := bool_decide (o = Some e);
  Summarizer := string;
  Summarize := {[ "count" := fun column => Ok column ]};
  df_drop cols d :=
    Ok (new_DataFrame (map (fun r => foldr delete r cols) (data d)) None);
  df_filter e d :=
    Ok (new_DataFrame
          (filter (fun r => row_get e r = VBool true) (data d))
          (columns d));
  df_groupBy cols d := Ok d;
  df_join l ln lc r rn rc := Ok (new_DataFrame (data l ++ data r) None);
  df_mutate n e d :=
    Ok (new_DataFrame (map (fun r => <[n := row_get e r]> r) (data d)) None);
  df_select cols d :=
    Ok (new_DataFrame
          (map (fun r => filter (fun kv => kv.1 ∈ cols) r) (data d)) (Some cols));
  df_sort cols rev d := Ok (if rev then new_DataFrame (reverse (data d)) (columns d) else d);
  df_summarize s d :=
    match s with
    | inl s =>
        Ok (new_DataFrame
              [ {[ s := VNum (number (Z.of_nat (length (data d)))) ]} ] (Some [s]))
    | inr _ => Throw TypeError
    end;
  df_ungroup d := Ok d;
  df_unique cols d := Ok d;
  tTest samples mean :=
    match samples with
    | [] => Throw (Error "mean requires at least one data point")
    | _ => Ok (VNum (number (Z.of_nat (length samples))))
    end;
  tTestTwoSample left right difference :=
    match left, right with
    | [], _ | _, [] => Ok VNull
    | [_], _ | _, [_] =>
        Throw (Error "sampleVariance requires at least two data points")
    | _, _ =>
        Ok (VNum (number (Z.of_nat (length left) - Z.of_nat (length right))))
    end
|}.

Section Transforms.
Context {ext : External}.

(** ** The transform objects *)

(** The fields a derived class adds to the ones of [TransformBase].  The
    plotting classes (bar, box, dot, histogram, scatter) differ in their
    constructors only: their instances carry [label] and [spec]. *)
Inductive Own :=
| CData (dataset : string)
| CDrop (columns : list string)
| CFilter (expr : Expr)
| CGroupBy (columns : list string)
| CJoin (leftName : string) (leftCol : value) (rightName : string)
        (rightCol : value)
| CMutate (newName : string) (expr : Expr)
| CNotify (label : string)
| CSelect (columns : list string)
| CSequence (newName : string) (limit : double)
| CSort (columns : list string) (reverse : bool)
| CSummarize (op column : string)
| CUngroup
| CUnique (columns : list string)
| CPlot (label : string) (spec : json)
| CTTestOneSample (label colName : string) (mean : double)
| CTTestPaired (label labelCol valueCol : string).

Record Transform := {
  name : string;
  requires : list string;
  produces : option string;
  input : bool;
  output : bool;
  own : Own
}.

(** The state a call of [run] works on: the environment it is handed and
    the receiver. *)
Record State := {
  env : Env;
  this : Transform
}.

(** Computations that read and write the state and may throw; the state at
    the point of the throw is kept. *)
Definition M (A : Type) : Type := State -> result A * State.

#[export] Instance M_ret : MRet M := fun A a s => (Ok a, s).
#[export] Instance M_bind : MBind M := fun A B f m s =>
  match m s with
  | (Ok a, s') => f a s'
  | (Throw e, s') => (Throw e, s')
  end.

#[export] Instance M_fmap : FMap M := fun A B f m s =>
  match m s with
  | (Ok a, s') => (Ok (f a), s')
  | (Throw e, s') => (Throw e, s')
  end.

Definition throw {A} (e : exn) : M A := fun s => (Throw e, s).

Definition lift {A} (r : result A) : M A := fun s => (r, s).

Definition getThis : M Transform := fun s => (Ok (this s), s).

(** Modelled from the spec: [env.appendLog(stageName)] appends to the
    execution log. *)
Definition appendLog (entry : string) : M unit := fun s =>
  let e := env s in
  (Ok tt, {| env := {| datasets := datasets e; log := (log e ++ [entry])%list;
                       plots := plots e; stats := stats e |};
             this := this s |}).

(** Modelled from the spec: [env.getData(name)] returns the named dataset
    and fails with [DependencyUnavailable] when it is absent. *)
Definition getData (dataset : string) : M DataFrame := fun s =>
  match datasets (env s) !! dataset with
  | Some d => (Ok d, s)
  | None => (Throw (DependencyUnavailable dataset), s)
  end.

(** Modelled from the spec: [env.setPlot(label, spec)] stores the
    specification under the label, overwriting an earlier one. *)
Definition setPlot (label : string) (spec : json) : M unit := fun s =>
  let e := env s in
  (Ok tt, {| env := {| datasets := datasets e; log := log e;
                       plots := <[label := spec]> (plots e); stats := stats e |};
             this := this s |}).

(** Modelled from the spec: [env.setStats(label, value)] stores the value
    under the label, overwriting an earlier one. *)
Definition setStats (label : string) (v : value) : M unit := fun s =>
  let e := env s in
  (Ok tt, {| env := {| datasets := datasets e; log := log e;
                       plots := plots e; stats := <[label := v]> (stats e) |};
             this := this s |}).

(** [df.method(...)]: reading a property of [null] or [undefined] is a
    TypeError. *)
Definition deref (df : dfval) : M DataFrame :=
  match df with
  | DFrame d => mret d
  | _ => throw TypeError
  end.

Definition putThis (t : Transform) : M unit := fun s =>
  (Ok tt, {| env := env s; this := t |}).

(** ** Constructors *)

(** [TransformBase]'s constructor.  It yields the object under construction,
    which still waits for the fields of the derived class.  [requires] is an
    array of strings and [produces] is [null] or a string by their types. *)
Definition TransformBase (name : string) (requires : list string)
    (produces : option string) (input output : bool) : result (Own -> Transform) :=
  check (negb (bool_decide (name = ""))) "Bad parameters to constructor";;
  Ok (fun fields =>
        {| name := name; requires := requires; produces := produces;
           input := input; output := output; own := fields |}).

Definition TransformData (dataset : value) : result Transform :=
  dataset ← expect_string dataset "Expected string";
  super ← TransformBase "read" [] None false true;
  Ok (super (CData dataset)).

(** [columns] is an array by its type, so [Array.isArray(columns)] holds. *)
Definition TransformDrop (columns : list string) : result Transform :=
  super ← TransformBase "drop" [] None true true;
  Ok (super (CDrop columns)).

(** [expr] is an [ExprBase] by its type. *)
Definition TransformFilter (expr : Expr) : result Transform :=
  super ← TransformBase "filter" [] None true true;
  Ok (super (CFilter expr)).

Definition TransformGroupBy (columns : list string) : result Transform :=
  super ← TransformBase "groupBy" [] None true true;
  Ok (super (CGroupBy columns)).

(** The names go through the check of [TransformBase] and are strings by
    their types; the columns are stored unchecked, whatever they are. *)
Definition TransformJoin (leftName : string) (leftCol : value)
    (rightName : string) (rightCol : value) : result Transform :=
  super ← TransformBase "join" [leftName; rightName] None false true;
  Ok (super (CJoin leftName leftCol rightName rightCol)).

Definition TransformMutate (newName : value) (expr : Expr) : result Transform :=
  newName ← expect_string newName "Expected string as new name";
  super ← TransformBase "mutate" [] None true true;
  Ok (super (CMutate newName expr)).

Definition TransformNotify (label : value) : result Transform :=
  label ← expect_string label "Expected string";
  super ← TransformBase "notify" [] (Some label) true false;
  Ok (super (CNotify label)).

Definition TransformSelect (columns : list string) : result Transform :=
  super ← TransformBase "select" [] None true true;
  Ok (super (CSelect columns)).

(** The limit is stored unchecked; it is a number by its type. *)
Definition TransformSequence (newName : value) (limit : double)
  : result Transform :=
  newName ← expect_string newName "Expected string as new name";
  super ← TransformBase "sequence" [] None true true;
  Ok (super (CSequence newName limit)).

Definition TransformSort (columns : list string) (reverse : value)
  : result Transform :=
  match reverse with
  | VBool reverse =>
      super ← TransformBase "sort" [] None true true;
      Ok (super (CSort columns reverse))
  | _ => Throw (Error "Expected Boolean")
  end.

(** [op in Summarize]: a property of its own or an inherited one. *)
Definition in_Summarize (op : string) : bool :=
  bool_decide (is_Some (Summarize !! op)) || bool_decide (op ∈ Object_prototype).

Definition TransformSummarize (op column : value) : result Transform :=
  op ← expect_string op "Expected string as op";
  check (in_Summarize op) ("Unknown summarization operation " +:+ op);;
  column ← expect_string column "Expected string as column name";
  super ← TransformBase "summarize" [] None true true;
  Ok (super (CSummarize op column)).

Definition TransformUngroup : result Transform :=
  super ← TransformBase "ungroup" [] None true true;
  Ok (super CUngroup).

Definition TransformUnique (columns : list string) : result Transform :=
  super ← TransformBase "unique" [] None true true;
  Ok (super (CUnique columns)).

(** [label && (typeof label === 'string')] *)
Definition nonempty_string (v : value) : bool := truthy v && is_string v.

Definition TransformPlot (name : string) (label : value)
    (spec fillin : list (string * json)) : result Transform :=
  match label with
  | VStr l =>
      check (negb (bool_decide (l = ""))) "Must provide non-empty label";;
      super ← TransformBase name [] None true false;
      Ok (super (CPlot l (Object_assign [spec; fillin; [("name", JStr name)]])))
  | _ => Throw (Error "Must provide non-empty label")
  end.

Definition TransformBar (label axisX axisY : value) : result Transform :=
  check (nonempty_string axisX && nonempty_string axisY)
        "Must provide non-empty strings for axes";;
  let spec :=
    [("data", JObj [("values", JNull)]);
     ("mark", JStr "bar");
     ("encoding", JObj [
        ("x", JObj [("field", JPrim axisX); ("type", JStr "ordinal")]);
        ("y", JObj [("field", JPrim axisY); ("type", JStr "quantitative")]);
        ("tooltip", JObj [("field", JPrim axisY); ("type", JStr "quantitative")])])] in
  TransformPlot "bar" label spec [("axisX", JPrim axisX); ("axisY", JPrim axisY)].

Definition TransformBox (label axisX axisY : value) : result Transform :=
  check (nonempty_string axisX && nonempty_string axisY)
        "Must provide non-empty strings for axes";;
  let spec :=
    [("data", JObj [("values", JNull)]);
     ("mark", JObj [("type", JStr "boxplot");
                    ("extent", JNum (Finite (Q2Qc (3 # 2))))]);
     ("encoding", JObj [
        ("x", JObj [("field", JPrim axisX); ("type", JStr "ordinal")]);
        ("y", JObj [("field", JPrim axisY); ("type", JStr "quantitative")])])] in
  TransformPlot "box" label spec [("axisX", JPrim axisX); ("axisY", JPrim axisY)].

Definition TransformDot (label axisX : value) : result Transform :=
  check (nonempty_string axisX) "Must provide non-empty string for axis";;
  let spec :=
    [("data", JObj [("values", JNull)]);
     ("mark", JObj [("type", JStr "circle"); ("opacity", JNum (number 1))]);
     ("transform", JArr [JObj [
        ("window", JArr [JObj [("op", JStr "rank"); ("as", JStr "id")]]);
        ("groupby", JArr [JPrim axisX])]]);
     ("encoding", JObj [
        ("x", JObj [("field", JPrim axisX); ("type", JStr "ordinal")]);
        ("y", JObj [("field", JStr "id"); ("type", JStr "ordinal");
                    ("axis", JNull); ("sort", JStr "descending")])])] in
  TransformPlot "dot" label spec [("axisX", JPrim axisX)].

Definition TransformHistogram (label column bins : value) : result Transform :=
  check (nonempty_string column && is_number bins &&
         match bins with VNum n => greater_than_zero n | _ => false end)
        "Invalid parameters for histogram";;
  let spec :=
    [("data", JObj [("values", JNull)]);
     ("mark", JStr "bar");
     ("encoding", JObj [
        ("x", JObj [("bin", JObj [("maxbins", JPrim bins)]);
                    ("field", JPrim column); ("type", JStr "quantitative")]);
        ("y", JObj [("aggregate", JStr "count"); ("type", JStr "quantitative")]);
        ("tooltip", JNull)])] in
  TransformPlot "histogram" label spec [("column", JPrim column); ("bins", JPrim bins)].

Definition TransformScatter (label axisX axisY color : value) : result Transform :=
  check (nonempty_string axisX && nonempty_string axisY)
        "Must provide non-empty strings for axes";;
  check (bool_decide (color = VNull) || (is_string color && truthy color))
        "Must provide null or non-empty string for color";;
  let encoding :=
    [("x", JObj [("field", JPrim axisX); ("type", JStr "quantitative")]);
     ("y", JObj [("field", JPrim axisY); ("type", JStr "quantitative")])] in
  let encoding :=
    if truthy color
    then obj_set "color" (JObj [("field", JPrim color); ("type", JStr "nominal")]) encoding
    else encoding in
  let spec :=
    [("data", JObj [("values", JNull)]);
     ("mark", JStr "point");
     ("encoding", JObj encoding)] in
  TransformPlot "scatter" label spec
    [("axisX", JPrim axisX); ("axisY", JPrim axisY); ("color", JPrim color)].

(** The statistical tests store their arguments unchecked; they are typed
    as their doc comments say. *)
Definition TransformTTestOneSample (label colName : string) (mean : double)
  : result Transform :=
  super ← TransformBase "ttest_one" [] None true false;
  Ok (super (CTTestOneSample label colName mean)).

Definition TransformTTestPaired (label labelCol valueCol : string)
  : result Transform :=
  super ← TransformBase "ttest_two" [] None true false;
  Ok (super (CTTestPaired label labelCol valueCol)).

(** ** Running a transform *)

(** [this.spec.data.values = rows].  The plotting constructors put an
    object under [data].  Assigning through [undefined], [null] or, in
    strict mode, a primitive is a TypeError; an array under [data], which no
    constructor puts there, is treated alike. *)
Definition set_data_values (rows : list Row) (spec : json) : result json :=
  match spec with
  | JObj fields =>
      match obj_get "data" fields with
      | Some (JObj inner) =>
          Ok (JObj (obj_set "data" (JObj (obj_set "values" (JRows rows) inner)) fields))
      | _ => Throw TypeError
      end
  | _ => Throw TypeError
  end.

Definition with_own (t : Transform) (fields : Own) : Transform :=
  {| name := name t; requires := requires t; produces := produces t;
     input := input t; output := output t; own := fields |}.

(** [df === null] *)
Definition is_null (df : dfval) : bool :=
  match df with DNull => true | _ => false end.

Definition TransformData_run (dataset : string) (df : dfval) : M dfval :=
  t ← getThis;
  appendLog (name t);;
  lift (check (is_null df) "Cannot provide input dataframe to reader");;
  loaded ← getData dataset;
  mret (DFrame (new_DataFrame (data loaded) (columns loaded))).

Definition TransformDrop_run (columns : list string) (df : dfval) : M dfval :=
  t ← getThis;
  appendLog (name t);;
  d ← deref df;
  DFrame <$> lift (df_drop columns d).

Definition TransformFilter_run (expr : Expr) (df : dfval) : M dfval :=
  t ← getThis;
  appendLog (name t);;
  d ← deref df;
  DFrame <$> lift (df_filter expr d).

Definition TransformGroupBy_run (columns : list string) (df : dfval) : M dfval :=
  t ← getThis;
  appendLog (name t);;
  d ← deref df;
  DFrame <$> lift (df_groupBy columns d).

Definition TransformJoin_run (leftName : string) (leftCol : value)
    (rightName : string) (rightCol : value) (df : dfval) : M dfval :=
  t ← getThis;
  appendLog (name t);;
  lift (check (is_null df) "Cannot provide input dataframe to join");;
  left ← getData leftName;
  right ← getData rightName;
  DFrame <$> lift (df_join left leftName leftCol right rightName rightCol).

Definition TransformMutate_run (newName : string) (expr : Expr) (df : dfval)
  : M dfval :=
  t ← getThis;
  appendLog (name t);;
  d ← deref df;
  DFrame <$> lift (df_mutate newName expr d).

Definition TransformNotify_run (df : dfval) : M dfval :=
  t ← getThis;
  appendLog (name t);;
  mret df.

Definition TransformSelect_run (columns : list string) (df : dfval) : M dfval :=
  t ← getThis;
  appendLog (name t);;
  d ← deref df;
  DFrame <$> lift (df_select columns d).

Definition TransformSequence_run (newName : string) (limit : double)
    (df : dfval) : M dfval :=
  t ← getThis;
  appendLog (name t);;
  raw ← lift (Array_from_length limit
                (fun k => row_set newName (VNum (number (Z.of_nat k + 1))) ∅));
  mret (DFrame (new_DataFrame raw None)).

Definition TransformSort_run (columns : list string) (reverse : bool)
    (df : dfval) : M dfval :=
  t ← getThis;
  appendLog (name t);;
  d ← deref df;
  DFrame <$> lift (df_sort columns reverse d).

(** [new Summarize[op](column)].  A property of [Summarize] itself is
    constructed.  Of the inherited ones, [constructor] is [Object], and
    [new Object(column)] is a String object; the others are no constructors
    (built-in methods, and the prototype itself under [__proto__]), as is
    [undefined] for any other name: a TypeError. *)
Definition new_Summarize (op column : string) : result (Summarizer + string) :=
  match Summarize !! op with
  | Some construct => summarizer ← construct column; Ok (inl summarizer)
  | None => if bool_decide (op = "constructor") then Ok (inr column)
            else Throw TypeError
  end.

Definition TransformSummarize_run (op column : string) (df : dfval) : M dfval :=
  t ← getThis;
  appendLog (name t);;
  summarizer ← lift (new_Summarize op column);
  d ← deref df;
  DFrame <$> lift (df_summarize summarizer d).

Definition TransformUngroup_run (df : dfval) : M dfval :=
  t ← getThis;
  appendLog (name t);;
  d ← deref df;
  DFrame <$> lift (df_ungroup d).

Definition TransformUnique_run (columns : list string) (df : dfval) : M dfval :=
  t ← getThis;
  appendLog (name t);;
  d ← deref df;
  DFrame <$> lift (df_unique columns d).

(** The method has no [return]: it yields [undefined]. *)
Definition TransformPlot_run (label : string) (spec : json) (df : dfval)
  : M dfval :=
  t ← getThis;
  appendLog (name t);;
  d ← deref df;
  spec ← lift (set_data_values (data d) spec);
  putThis (with_own t (CPlot label spec));;
  setPlot label spec;;
  mret DUndefined.

Definition TransformTTestOneSample_run (label colName : string) (mean : double)
    (df : dfval) : M dfval :=
  t ← getThis;
  appendLog (name t);;
  d ← deref df;
  let samples := map (row_get colName) (data d) in
  pValue ← lift (tTest samples mean);
  setStats label pValue;;
  mret df.

Definition TransformTTestPaired_run (label labelCol valueCol : string)
    (df : dfval) : M dfval :=
  t ← getThis;
  appendLog (name t);;
  d ← deref df;
  let known := Set_from (map (row_get labelCol) (data d)) in
  lift (check (bool_decide (length known = 2%nat))
              "Must have exactly two labels for data");;
  let leftVal := default VUndefined (known !! 0%nat) in
  let rightVal := default VUndefined (known !! 1%nat) in
  let leftVals :=
    map (row_get valueCol)
        (filter (fun row => strict_equal (row_get labelCol row) leftVal = true)
                (data d)) in
  let rightVals :=
    map (row_get valueCol)
        (filter (fun row => strict_equal (row_get labelCol row) rightVal = true)
                (data d)) in
  pValue ← lift (tTestTwoSample leftVals rightVals (number 0));
  setStats label pValue;;
  mret df.

(** Method dispatch on the class of the receiver. *)
Definition run_method (df : dfval) : M dfval :=
  t ← getThis;
  match own t with
  | CData dataset => TransformData_run dataset df
  | CDrop columns => TransformDrop_run columns df
  | CFilter expr => TransformFilter_run expr df
  | CGroupBy columns => TransformGroupBy_run columns df
  | CJoin leftName leftCol rightName rightCol =>
      TransformJoin_run leftName leftCol rightName rightCol df
  | CMutate newName expr => TransformMutate_run newName expr df
  | CNotify _ => TransformNotify_run df
  | CSelect columns => TransformSelect_run columns df
  | CSequence newName limit => TransformSequence_run newName limit df
  | CSort columns reverse => TransformSort_run columns reverse df
  | CSummarize op column => TransformSummarize_run op column df
  | CUngroup => TransformUngroup_run df
  | CUnique columns => TransformUnique_run columns df
  | CPlot label spec => TransformPlot_run label spec df
  | CTTestOneSample label colName mean =>
      TransformTTestOneSample_run label colName mean df
  | CTTestPaired label labelCol valueCol =>
      TransformTTestPaired_run label labelCol valueCol df
  end.

(** [t.run(env, df)]: what the call yields, and the environment and the
    transform as the call leaves them. *)
Definition run (t : Transform) (e : Env) (df : dfval) : result dfval * State :=
  run_method df {| env := e; this := t |}.

(** ** Equality of transforms *)

(** ['columns' in t], and [t.columns] when it is there. *)
Definition columns_of (t : Transform) : option (list string) :=
  match own t with
  | CDrop cs | CGroupBy cs | CSelect cs | CSort cs _ | CUnique cs => Some cs
  | _ => None
  end.

(** [other.expr]; [None] is [undefined]. *)
Definition expr_of (t : Transform) : option Expr :=
  match own t with
  | CFilter e | CMutate _ e => Some e
  | _ => None
  end.

(** [other.label] *)
Definition label_of (t : Transform) : option string :=
  match own t with
  | CNotify l | CPlot l _ | CTTestOneSample l _ _ | CTTestPaired l _ _ => Some l
  | _ => None
  end.

(** [other.newName] *)
Definition newName_of (t : Transform) : option string :=
  match own t with
  | CMutate n _ | CSequence n _ => Some n
  | _ => None
  end.

(** [TransformBase.equal]; [other] is a transform, so
    [other instanceof TransformBase] holds. *)
Definition TransformBase_equal (this other : Transform) : bool :=
  bool_decide (name this = name other).

Definition equalColumns (this other : Transform) : result bool :=
  match columns_of this with
  | None => Throw (Error "This object must have columns")
  | Some cs =>
      match columns_of other with
      | None => Throw (Error "Other object must have columns")
      | Some cs' =>
          Ok (bool_decide (name this = name other)
              && bool_decide (length cs = length cs')
              && forallb (fun x => bool_decide (x ∈ cs')) cs)
      end
  end.

Definition equal (this other : Transform) : result bool :=
  match own this with
  | CData dataset =>
      Ok (TransformBase_equal this other
          && match own other with
             | CData dataset' => bool_decide (dataset = dataset')
             | _ => false
             end)
  | CDrop _ | CGroupBy _ | CSelect _ | CSort _ _ | CUnique _ =>
      equalColumns this other
  | CFilter expr =>
      Ok (TransformBase_equal this other && expr_equal expr (expr_of other))
  | CJoin leftName leftCol rightName rightCol =>
      Ok (TransformBase_equal this other
          && match own other with
             | CJoin leftName' leftCol' rightName' rightCol' =>
                 bool_decide (leftName = leftName')
                 && strict_equal leftCol leftCol'
                 && bool_decide (rightName = rightName')
                 && strict_equal rightCol rightCol'
             | _ => false
             end)
  | CMutate newName expr =>
      Ok (TransformBase_equal this other
          && bool_decide (newName_of other = Some newName)
          && expr_equal expr (expr_of other))
  | CNotify label =>
      Ok (TransformBase_equal this other
          && bool_decide (label_of other = Some label))
  | CSequence newName limit =>
      Ok (TransformBase_equal this other
          && bool_decide (newName_of other = Some newName)
          && match own other with
             | CSequence _ limit' => strict_equal (VNum limit) (VNum limit')
             | _ => false
             end)
  | CSummarize op column =>
      Ok (TransformBase_equal this other
          && match own other with
             | CSummarize op' column' =>
                 bool_decide (op = op') && bool_decide (column = column')
             | _ => false
             end)
  | CUngroup | CPlot _ _ | CTTestOneSample _ _ _ | CTTestPaired _ _ _ =>
      Ok (TransformBase_equal this other)
  end.

(** ** The stage vocabulary *)

(** The transforms the five plotting constructors build. *)
Definition plot_variant (t : Transform) : Prop :=
  (exists label axisX axisY, TransformBar label axisX axisY = Ok t)
  \/ (exists label axisX axisY, TransformBox label axisX axisY = Ok t)
  \/ (exists label axisX, TransformDot label axisX = Ok t)
  \/ (exists label column bins, TransformHistogram label column bins = Ok t)
  \/ (exists label axisX axisY color, TransformScatter label axisX axisY color = Ok t).

(** The transforms the exported constructors build. *)
Inductive constructed : Transform -> Prop :=
| new_data dataset t : TransformData dataset = Ok t -> constructed t
| new_drop columns t : TransformDrop columns = Ok t -> constructed t
| new_filter expr t : TransformFilter expr = Ok t -> constructed t
| new_groupBy columns t : TransformGroupBy columns = Ok t -> constructed t
| new_join leftName leftCol rightName rightCol t :
    TransformJoin leftName leftCol rightName rightCol = Ok t -> constructed t
| new_mutate newName expr t : TransformMutate newName expr = Ok t -> constructed t
| new_notify label t : TransformNotify label = Ok t -> constructed t
| new_select columns t : TransformSelect columns = Ok t -> constructed t
| new_sequence newName limit t :
    TransformSequence newName limit = Ok t -> constructed t
| new_sort columns reverse t : TransformSort columns reverse = Ok t -> constructed t
| new_summarize op column t : TransformSummarize op column = Ok t -> constructed t
| new_ungroup t : TransformUngroup = Ok t -> constructed t
| new_unique columns t : TransformUnique columns = Ok t -> constructed t
| new_plot t : plot_variant t -> constructed t
| new_ttest_one label colName mean t :
    TransformTTestOneSample label colName mean = Ok t -> constructed t
| new_ttest_two label labelCol valueCol t :
    TransformTTestPaired label labelCol valueCol = Ok t -> constructed t.

(** No field that [equal] compares with [===] is NaN: the limit of a
    sequence, the columns of a join. *)
Definition no_NaN_field (t : Transform) : bool :=
  match own t with
  | CSequence _ limit => negb (bool_decide (limit = NaN))
  | CJoin _ leftCol _ rightCol =>
      negb (bool_decide (leftCol = VNum NaN))
      && negb (bool_decide (rightCol = VNum NaN))
  | _ => true
  end.

(** The classes whose [equal] compares every field they add. *)
Definition compares_own_fields (t : Transform) : bool :=
  match own t with
  | CData _ | CJoin _ _ _ _ | CNotify _ | CSequence _ _ | CSummarize _ _ => true
  | _ => false
  end.

End Transforms.

(** ** Sample data *)

Definition scores : DataFrame :=
  new_DataFrame
    [ {[ "group" := VStr "a"; "score" := VNum (number 1) ]};
      {[ "group" := VStr "b"; "score" := VNum (number 2) ]};
      {[ "group" := VStr "a"; "score" := VNum (number 5) ]} ]
    (Some ["group"; "score"]).

Definition one_group : DataFrame :=
  new_DataFrame
    [ {[ "group" := VStr "a"; "score" := VNum (number 1) ]};
      {[ "group" := VStr "a"; "score" := VNum (number 5) ]} ]
    (Some ["group"; "score"]).

Definition no_rows : DataFrame := new_DataFrame [] None.

Definition paired_scores : DataFrame :=
  new_DataFrame
    [ {[ "group" := VStr "a"; "score" := VNum (number 1) ]};
      {[ "group" := VStr "b"; "score" := VNum (number 2) ]};
      {[ "group" := VStr "a"; "score" := VNum (number 5) ]};
      {[ "group" := VStr "b"; "score" := VNum (number 4) ]} ]
    (Some ["group"; "score"]).

Definition nan_scores : DataFrame :=
  new_DataFrame
    [ {[ "group" := VNum NaN; "score" := VNum (number 1) ]};
      {[ "group" := VStr "a"; "score" := VNum (number 2) ]};
      {[ "group" := VNum NaN; "score" := VNum (number 5) ]};
      {[ "group" := VStr "a"; "score" := VNum (number 4) ]} ]
    (Some ["group"; "score"]).

Definition loaded : Env :=
  {| datasets := {[ "scores" := scores ]}; log := ["read"]; plots := ∅;
     stats := ∅ |}.

(** ** Proof automation *)

(** Unfolds a run down to the collaborators' answers. *)
Ltac unfold_run :=
  unfold run, run_method, TransformData_run, TransformDrop_run,
    TransformFilter_run, TransformGroupBy_run, TransformJoin_run,
    TransformMutate_run, TransformNotify_run, TransformSelect_run,
    TransformSequence_run, TransformSort_run, TransformSummarize_run,
    TransformUngroup_run, TransformUnique_run, TransformPlot_run,
    TransformTTestOneSample_run, TransformTTestPaired_run;
  unfold mbind, mret, fmap, M_bind, M_ret, M_fmap, getThis, appendLog, getData,
    setPlot, setStats, putThis, deref, lift, throw, check; simpl.

(** Splits on whatever a run branches on. *)
Ltac run_cases :=
  repeat match goal with
         | |- context [match ?x with _ => _ end] =>
             lazymatch x with
             | context [match _ with _ => _ end] => fail
             | _ => destruct x eqn:?; simpl
             end
         end.

(** Unfolds a constructor whose result is known and splits on its checks. *)
Ltac unfold_new H :=
  unfold TransformData, TransformDrop, TransformFilter, TransformGroupBy,
    TransformJoin, TransformMutate, TransformNotify, TransformSelect,
    TransformSequence, TransformSort, TransformSummarize, TransformUngroup,
    TransformUnique, TransformBar, TransformBox, TransformDot,
    TransformHistogram, TransformScatter, TransformPlot,
    TransformTTestOneSample, TransformTTestPaired, TransformBase,
    expect_string, check, mbind, mret, result_bind, result_ret in H;
  simpl in H;
  repeat match type of H with
         | context [match ?x with _ => _ end] =>
             lazymatch x with
             | context [match _ with _ => _ end] => fail
             | _ => destruct x eqn:?; simpl in H
             end
         end;
  try discriminate H.

(** Splits on the constructor that built a transform. *)
Ltac invert_constructed H :=
  destruct H as
    [? ? H|? ? H|? ? H|? ? H|? ? ? ? ? H|? ? ? H|? ? H|? ? H|? ? ? H|? ? ? H
    |? ? ? H|? H|? ? H|? H|? ? ? ? H|? ? ? ? H];
  [..|destruct H as [(?&?&?&H)|[(?&?&?&H)|[(?&?&H)|[(?&?&?&H)|(?&?&?&?&H)]]]]| |];
  unfold_new H; injection H as <-.

(** ** Properties *)

Section Properties.
Context {ext : External}.

(** *** The [Set] of the labels *)

Lemma Set_add_elem (known : list value) (x y : value) :
  y ∈ Set_add known x <-> y ∈ known \/ y = x.
Proof.
  unfold Set_add. case_bool_decide as Hx.
  - split; [by left|]. intros [?| ->]; done.
  - rewrite elem_of_app, list_elem_of_singleton. done.
Qed.

Lemma Set_add_NoDup (known : list value) (x : value) :
  NoDup known -> NoDup (Set_add known x).
Proof.
  intros Hnd. unfold Set_add. case_bool_decide as Hx; [done|].
  apply NoDup_app. split_and!; [done| |apply NoDup_singleton].
  intros y Hy ->%list_elem_of_singleton. done.
Qed.

Lemma foldl_Set_add (xs known : list value) :
  NoDup known ->
  NoDup (foldl Set_add known xs)
  /\ forall y, y ∈ foldl Set_add known xs <-> y ∈ known \/ y ∈ xs.
Proof.
  revert known. induction xs as [|x xs IH]; intros known Hnd; simpl.
  - split; [done|]. intros y. rewrite elem_of_nil. tauto.
  - destruct (IH (Set_add known x) (Set_add_NoDup _ _ Hnd)) as [Hnd' Hin].
    split; [done|]. intros y.
    rewrite Hin, Set_add_elem, elem_of_cons. tauto.
Qed.

Lemma Set_from_NoDup (xs : list value) : NoDup (Set_from xs).
Proof. apply foldl_Set_add, NoDup_nil_2. Qed.

Lemma Set_from_elem (xs : list value) (y : value) : y ∈ Set_from xs <-> y ∈ xs.
Proof.
  unfold Set_from.
  rewrite (proj2 (foldl_Set_add xs [] (NoDup_nil_2)) y), elem_of_nil. tauto.
Qed.

(** The size of the set is the number of distinct elements. *)
Lemma Set_from_size (xs : list value) :
  length (Set_from xs) = length (remove_dups xs).
Proof.
  apply Permutation_length, NoDup_Permutation.
  - apply Set_from_NoDup.
  - apply NoDup_remove_dups.
  - intros y. rewrite Set_from_elem, elem_of_remove_dups. done.
Qed.

(** *** What every run does *)

(** C7: every run appends the stage's name to the log of the environment,
    first thing, and nothing later in the run touches the log: whether the
    run returns or throws, the log it leaves is the old one with the name of
    the stage at its end. *)
Theorem run_appends_log (t : Transform) (e : Env) (df : dfval) :
  log (env (run t e df).2) = (log e ++ [name t])%list.
Proof.
  destruct t as [nm rq pr inp out fields].
  destruct fields; unfold_run; run_cases; reflexivity.
Qed.

(** C5 (amended): a run leaves every field of the transform as it was,
    with one exception: the run of a plotting transform stores the rows of
    the dataframe it is given in [spec.data.values].  The base fields and
    the label never change, and no other class writes to [this]. *)
Theorem run_keeps_fields (t : Transform) (e : Env) (df : dfval) :
  let t' := this (run t e df).2 in
  name t' = name t /\ requires t' = requires t /\ produces t' = produces t
  /\ input t' = input t /\ output t' = output t
  /\ match own t with
     | CPlot label spec =>
         exists spec',
           own t' = CPlot label spec'
           /\ (spec' = spec
               \/ exists d, df = DFrame d
                           /\ set_data_values (data d) spec = Ok spec')
     | fields => own t' = fields
     end.
Proof.
  destruct t as [nm rq pr inp out fields].
  destruct fields; unfold_run; run_cases; split_and!; eauto 10.
Qed.

(** *** Construction *)

(** C8 (amended): [requires] is empty for every stage but join, the read
    stage included (its dataset is only a field of its own); for a join it
    is the pair of its operand names, left then right. *)
Theorem requires_of_constructed (t : Transform) :
  constructed t ->
  requires t = match own t with
               | CJoin leftName _ rightName _ => [leftName; rightName]
               | _ => []
               end.
Proof.
  intros Hnew. destruct Hnew as
    [? ? H|? ? H|? ? H|? ? H|? ? ? ? ? H|? ? ? H|? ? H|? ? H|? ? ? H|? ? ? H
    |? ? ? H|? H|? ? H|? H|? ? ? ? H|? ? ? ? H].
  14: destruct H as [(?&?&?&H)|[(?&?&?&H)|[(?&?&H)|[(?&?&?&H)|(?&?&?&?&H)]]]].
  all: unfold_new H; injection H as <-; reflexivity.
Qed.

(** C6: the constructor of the summarize stage checks the operation name
    with [op in Summarize].  A name that [Summarize] neither has nor
    inherits makes the construction fail with the message of an unknown
    operation, and a name it has, with a string as column name, yields the
    summarize transform.  But the check lets through the names [Summarize]
    inherits from [Object.prototype], which are no summarizers: with
    [toString] the construction succeeds, and the failure only comes when
    the transform is run, as a TypeError. *)
Theorem summarize_admits_inherited_names (op c : string) (column : value)
    (e : Env) (df : dfval) :
  (Summarize !! op = None -> op ∉ Object_prototype ->
   exists err, TransformSummarize (VStr op) column = Throw err
               /\ UnknownOperation err = true)
  /\ (is_Some (Summarize !! op) \/ op ∈ Object_prototype ->
      TransformSummarize (VStr op) (VStr c) =
        Ok {| name := "summarize"; requires := []; produces := None;
              input := true; output := true; own := CSummarize op c |})
  /\ (exists t,
        TransformSummarize (VStr "toString") (VStr c) = Ok t
        /\ (Summarize !! "toString" = None -> (run t e df).1 = Throw TypeError)).
Proof.
  split_and!.
  - intros Hop Hproto.
    exists (Error ("Unknown summarization operation " +:+ op)).
    unfold TransformSummarize, in_Summarize, expect_string, check, mbind,
      result_bind; simpl.
    rewrite Hop. rewrite bool_decide_eq_false_2 by (intros [? ?]; discriminate).
    rewrite (bool_decide_eq_false_2 (op ∈ Object_prototype)) by done. simpl.
    split; [reflexivity|].
    unfold UnknownOperation. apply bool_decide_eq_true_2.
    simpl. repeat (destruct (Ascii.ascii_dec _ _); [|done]).
    by destruct op.
  - intros Hop.
    unfold TransformSummarize, in_Summarize, expect_string, check, mbind,
      result_bind; simpl.
    assert (bool_decide (is_Some (Summarize !! op))
            || bool_decide (op ∈ Object_prototype) = true) as ->; [|reflexivity].
    apply orb_true_iff. destruct Hop as [Hop|Hop];
      [left|right]; by apply bool_decide_eq_true_2.
  - eexists. split.
    + unfold TransformSummarize, in_Summarize, expect_string, check, mbind,
        result_bind; simpl.
      rewrite orb_true_r. reflexivity.
    + intros Hown. unfold_run. unfold new_Summarize. rewrite Hown. reflexivity.
Qed.

(** *** The read stage *)

(** C3 (amended): the run of a read transform fails with the invariant
    violation exactly when [df] is not [null]: any dataframe, an empty one
    too, makes it fail.  With [null] it fetches the dataset named at
    construction from the environment (which fails when there is none) and
    returns a dataframe made of its data and columns. *)
Theorem read_run (dataset : string) (e : Env) (df : dfval) :
  exists t, TransformData (VStr dataset) = Ok t
  /\ ((exists err, (run t e df).1 = Throw err /\ InvariantViolation err = true)
       <-> df <> DNull)
  /\ (df = DNull ->
      (run t e df).1 =
        match datasets e !! dataset with
        | Some loaded => Ok (DFrame (new_DataFrame (data loaded) (columns loaded)))
        | None => Throw (DependencyUnavailable dataset)
        end).
Proof.
  eexists. split; [reflexivity|]. split.
  - destruct df; unfold_run; run_cases; split;
      try done; try (intros (err & [=<-] & Herr); done); try (intros _; eauto).
    all: intros (err & Heq & Herr); discriminate Heq.
  - intros ->. unfold_run. run_cases; reflexivity.
Qed.

(** *** The plotting stages *)

(** C4 (amended): the run of a plotting transform on a dataframe stores the
    rows of the dataframe in the [data.values] slot of its specification,
    registers that specification under its label, logs its name, and
    returns [undefined]: the method has no [return], so the dataframe is not
    handed on. *)
Theorem plot_run (t : Transform) (e : Env) (d : DataFrame) :
  plot_variant t ->
  exists label fields,
    own t = CPlot label (JObj fields)
    /\ obj_get "data" fields = Some (JObj [("values", JNull)])
    /\ let spec' :=
         JObj (obj_set "data" (JObj [("values", JRows (data d))]) fields) in
       run t e (DFrame d) =
         (Ok DUndefined,
          {| env := {| datasets := datasets e;
                       log := (log e ++ [name t])%list;
                       plots := <[label := spec']> (plots e);
                       stats := stats e |};
             this := with_own t (CPlot label spec') |}).
Proof.
  intros [(?&?&?&H)|[(?&?&?&H)|[(?&?&H)|[(?&?&?&H)|(?&?&?&?&H)]]]].
  all: unfold_new H; injection H as <-.
  all: eexists _, _; split; [reflexivity|]; split; reflexivity.
Qed.

(** *** The sequence stage *)

Lemma Qfloor_number (z : Z) : Qfloor (Q2Qc (inject_Z z)) = z.
Proof.
  simpl. rewrite (Qfloor_comp _ _ (Qred_correct (inject_Z z))). apply Qfloor_Z.
Qed.

Lemma ToLength_number (z : Z) :
  (0 <= z < 2 ^ 53)%Z -> ToLength (number z) = z.
Proof. intros Hz. unfold ToLength, number. rewrite Qfloor_number. lia. Qed.

(** C9 (amended): whatever [df] is, the run of a sequence transform with a
    name [newName] other than [__proto__] and a limit [n] below 2^32
    returns a dataframe of exactly [n] rows; row number [k] (from 0) has the
    single column [newName], with the value [k + 1]: the values are
    1, ..., [n] in increasing order. *)
Theorem sequence_run (newName : string) (n : nat) (e : Env) (df : dfval) :
  newName <> "__proto__" -> (Z.of_nat n < 2 ^ 32)%Z ->
  exists t d,
    TransformSequence (VStr newName) (number (Z.of_nat n)) = Ok t
    /\ (run t e df).1 = Ok (DFrame d)
    /\ length (data d) = n
    /\ forall k, (k < n)%nat ->
         data d !! k = Some ({[ newName := VNum (number (Z.of_nat k + 1)) ]} : Row).
Proof.
  intros Hname Hn. eexists _, _. split; [reflexivity|].
  unfold_run. unfold Array_from_length.
  rewrite ToLength_number by lia.
  destruct (2 ^ 32 <=? Z.of_nat n)%Z eqn:Hbound; [lia|]. simpl.
  split; [reflexivity|]. simpl. rewrite Nat2Z.id. split.
  - by rewrite length_map, length_seq.
  - intros k Hk. rewrite list_lookup_fmap, lookup_seq_lt by done. simpl.
    unfold row_set. by rewrite bool_decide_eq_false_2.
Qed.

(** *** The paired t-test *)

Lemma strict_equal_true (x y : value) :
  strict_equal x y = true <-> x = y /\ x <> VNum NaN.
Proof.
  unfold strict_equal. destruct (decide (x = VNum NaN)) as [->|Hx].
  - split; [discriminate|]. intros [_ Hnan]. done.
  - assert (match x with
            | VNum NaN => false
            | _ => bool_decide (x = y)
            end = bool_decide (x = y)) as ->
      by (by destruct x as [| | |[| |]| |]).
    rewrite bool_decide_eq_true. tauto.
Qed.

Lemma labelled_rows_nonempty (labelCol valueCol : string) (rows : list Row)
    (l : value) :
  l <> VNum NaN ->
  l ∈ map (row_get labelCol) rows ->
  map (row_get valueCol)
      (filter (fun row => strict_equal (row_get labelCol row) l = true) rows)
  <> [].
Proof.
  intros Hnan (row & -> & Hrow)%list_elem_of_fmap.
  assert (row ∈ filter (fun r => strict_equal (row_get labelCol r)
                                   (row_get labelCol row) = true) rows)
    as Hin by (apply list_elem_of_filter; split; [by apply strict_equal_true|done]).
  destruct (filter _ rows); [by apply elem_of_nil in Hin|done].
Qed.

(** C1 (amended): the run of a paired t-test on a dataframe fails with the
    error of an invalid grouping, and records nothing, when the label
    column does not hold exactly two distinct values (one value, or three or
    more; none at all too).  When it holds exactly two, [a] first met and
    [b] second, the run hands the value column of the rows whose label is
    [a] and of the rows whose label is [b] to the two-sample test of the
    statistics library.  If the library answers, its answer is recorded
    under the label of the transform and the dataframe is returned; if it
    throws, the run fails with its exception and records nothing. *)
Theorem ttest_paired_run (label labelCol valueCol : string) (e : Env)
    (d : DataFrame) :
  exists t,
    TransformTTestPaired label labelCol valueCol = Ok t
    /\ let labels := map (row_get labelCol) (data d) in
       let values_of l :=
         map (row_get valueCol)
             (filter (fun row => strict_equal (row_get labelCol row) l = true)
                     (data d)) in
       (length (remove_dups labels) <> 2%nat ->
          exists err, (run t e (DFrame d)).1 = Throw err
                      /\ InvalidGrouping err = true
                      /\ stats (env (run t e (DFrame d)).2) = stats e)
       /\ (length (remove_dups labels) = 2%nat ->
           exists a b,
             Set_from labels = [a; b]
             /\ (run t e (DFrame d)).1
                = (tTestTwoSample (values_of a) (values_of b) (number 0)
                   ≫= fun _ => Ok (DFrame d))
             /\ (forall p,
                   tTestTwoSample (values_of a) (values_of b) (number 0) = Ok p ->
                   stats (env (run t e (DFrame d)).2) = <[label := p]> (stats e))
             /\ (forall err,
                   tTestTwoSample (values_of a) (values_of b) (number 0)
                   = Throw err ->
                   stats (env (run t e (DFrame d)).2) = stats e)).
Proof.
  eexists. split; [reflexivity|]. simpl.
  rewrite <- Set_from_size. split.
  - intros Hsize. eexists. unfold_run.
    rewrite bool_decide_eq_false_2 by done. simpl. done.
  - intros Hsize.
    destruct (Set_from (map (row_get labelCol) (data d)))
      as [|a [|b [|c known]]] eqn:Hknown; try discriminate Hsize.
    exists a, b. split; [done|].
    unfold_run. rewrite Hknown. simpl.
    destruct (tTestTwoSample _ _ (number 0)) as [p|err]; simpl.
    + split_and!; [done|by intros p' [= <-]|discriminate].
    + split_and!; [done|discriminate|done].
Qed.

(** *** Equality of the stages with columns *)

Lemma includes_every (cs cs' : list string) :
  forallb (fun x => bool_decide (x ∈ cs')) cs = true
  <-> forall x, x ∈ cs -> x ∈ cs'.
Proof.
  induction cs as [|c cs IH]; simpl.
  - split; [|done]. intros _ x Hx. by apply elem_of_nil in Hx.
  - rewrite andb_true_iff, bool_decide_eq_true, IH. split.
    + intros [Hc Hcs] x [->|Hx]%elem_of_cons; auto.
    + intros Hall. split; [apply Hall; left|].
      intros x Hx. apply Hall. by right.
Qed.

(** [equalColumns] on two transforms with columns always answers, and says
    yes when the names agree, the lengths agree and each column of the
    receiver occurs among the columns of the other. *)
Lemma equalColumns_true (t1 t2 : Transform) (cs1 cs2 : list string) :
  columns_of t1 = Some cs1 -> columns_of t2 = Some cs2 ->
  exists b, equalColumns t1 t2 = Ok b
            /\ (b = true <-> name t1 = name t2
                             /\ length cs1 = length cs2
                             /\ forall x, x ∈ cs1 -> x ∈ cs2).
Proof.
  intros H1 H2. unfold equalColumns. rewrite H1, H2. eexists.
  split; [reflexivity|].
  rewrite !andb_true_iff, !bool_decide_eq_true, includes_every. tauto.
Qed.



(** C10: on two stages of one kind whose column lists have no duplicates,
    [equalColumns] says yes exactly when the two lists have the same
    elements.  With duplicates this fails and the relation is not
    symmetric: drop [a, a] equals drop [a, b], but drop [a, b] does not
    equal drop [a, a], and the two lists differ as sets. *)
Theorem equalColumns_is_set_equality :
  (forall t1 t2 cs1 cs2,
     columns_of t1 = Some cs1 -> columns_of t2 = Some cs2 ->
     name t1 = name t2 -> NoDup cs1 -> NoDup cs2 ->
     (equalColumns t1 t2 = Ok true <-> forall x, x ∈ cs1 <-> x ∈ cs2))
  /\ (exists t1 t2,
        TransformDrop ["a"; "a"] = Ok t1 /\ TransformDrop ["a"; "b"] = Ok t2
        /\ equalColumns t1 t2 = Ok true
        /\ equalColumns t2 t1 = Ok false
        /\ ~ (forall x, x ∈ ["a"; "a"] <-> x ∈ ["a"; "b"])).
Proof.
  split.
  - intros t1 t2 cs1 cs2 H1 H2 Hn Hnd1 Hnd2.
    destruct (equalColumns_true _ _ _ _ H1 H2) as (b & -> & Hb).
    split.
    + intros [= ->]. destruct Hb as [Hb _].
      destruct (Hb eq_refl) as (_ & Hlen & Hall).
      assert (cs1 ≡ₚ cs2) as Hperm.
      { apply submseteq_length_Permutation; [by apply NoDup_submseteq|lia]. }
      intros x. by rewrite Hperm.
    + intros Hset. f_equal. apply Hb. split_and!; [done| |by intros x; apply Hset].
      apply Permutation_length, NoDup_Permutation; done.
  - eexists _, _. split_and!; try reflexivity.
    intros Hset. specialize (Hset "b").
    destruct Hset as [_ Hset].
    assert ("b" ∈ ["a"; "a"]) as Hin by (apply Hset; by repeat constructor).
    by apply elem_of_cons in Hin as [?|[?|[]%elem_of_nil]%elem_of_cons].
Qed.

End Properties.

(** ** Further properties of the transforms *)

Section Objects.

Lemma obj_get_set_eq (key : string) (v : json) (fields : list (string * json)) :
  obj_get key (obj_set key v fields) = Some v.
Proof.
  induction fields as [|[k w] rest IH]; simpl.
  - by rewrite bool_decide_eq_true_2.
  - case_bool_decide as Hk; simpl.
    + by rewrite bool_decide_eq_true_2.
    + by rewrite bool_decide_eq_false_2.
Qed.

Lemma obj_get_set_ne (key key' : string) (v : json)
    (fields : list (string * json)) :
  key <> key' -> obj_get key' (obj_set key v fields) = obj_get key' fields.
Proof.
  intros Hne. induction fields as [|[k w] rest IH]; simpl.
  - by rewrite bool_decide_eq_false_2.
  - case_bool_decide as Hk; simpl.
    + subst k. by rewrite !bool_decide_eq_false_2.
    + case_bool_decide; [done|apply IH].
Qed.

Lemma obj_set_set (key : string) (v v' : json) (fields : list (string * json)) :
  obj_set key v' (obj_set key v fields) = obj_set key v' fields.
Proof.
  induction fields as [|[k w] rest IH]; simpl.
  - by rewrite bool_decide_eq_true_2.
  - case_bool_decide as Hk; simpl.
    + by rewrite bool_decide_eq_true_2.
    + rewrite bool_decide_eq_false_2 by done. by rewrite IH.
Qed.

(** Overwriting a key that is there keeps the keys and their order. *)
Lemma obj_set_keys (key : string) (v w : json) (fields : list (string * json)) :
  obj_get key fields = Some w ->
  map fst (obj_set key v fields) = map fst fields.
Proof.
  induction fields as [|[k u] rest IH]; simpl; [done|].
  case_bool_decide; simpl; [done|]. intros Hget. by rewrite IH.
Qed.

(** A specification that has taken rows once takes other rows as if it had
    never taken any. *)
Lemma set_data_values_again (rows rows' : list Row) (spec spec' : json) :
  set_data_values rows spec = Ok spec' ->
  set_data_values rows' spec' = set_data_values rows' spec.
Proof.
  unfold set_data_values. destruct spec as [| | |fields]; try discriminate.
  destruct (obj_get "data" fields) as [[| | |inner]|] eqn:Hdata; try discriminate.
  intros [= <-]. rewrite obj_get_set_eq, !obj_set_set. reflexivity.
Qed.

(** Whether the rows can be stored depends on the specification only. *)
Lemma set_data_values_any (rows rows' : list Row) (spec spec' : json) :
  set_data_values rows spec = Ok spec' ->
  exists spec'', set_data_values rows' spec = Ok spec''.
Proof.
  unfold set_data_values. destruct spec as [| | |fields]; try discriminate.
  destruct (obj_get "data" fields) as [[| | |inner]|]; try discriminate.
  eauto.
Qed.

Lemma set_data_values_same (rows : list Row) (spec spec' : json) :
  set_data_values rows spec = Ok spec' ->
  set_data_values rows spec' = Ok spec'.
Proof.
  intros Hset. by rewrite (set_data_values_again _ _ _ _ Hset).
Qed.

End Objects.

Section RunLaws.
Context {ext : External}.

(** X1: a run never writes to the datasets of the environment.  It writes
    to the plots only when the transform is a plotting one, and then only
    under its label; it writes to the statistics only when the transform is
    one of the two t-tests, and then only under its label. *)
Theorem run_frame (t : Transform) (e : Env) (df : dfval) :
  let e' := env (run t e df).2 in
  datasets e' = datasets e
  /\ (forall k, plots e' !! k <> plots e !! k ->
        exists spec, own t = CPlot k spec)
  /\ (forall k, stats e' !! k <> stats e !! k ->
        (exists colName mean, own t = CTTestOneSample k colName mean)
        \/ (exists labelCol valueCol, own t = CTTestPaired k labelCol valueCol)).
Proof.
  destruct t as [nm rq pr inp out fields].
  destruct fields; unfold_run; run_cases; split_and!; try done.
  all: intros k Hk; destruct (decide (label = k)) as [<-|Hne]; eauto.
  all: by rewrite lookup_insert_ne in Hk.
Qed.

(** X2: a run that throws has written nothing but its log entry: the
    datasets, the plots and the statistics of the environment are as they
    were, and so is the transform (a failing plot has not touched its
    specification). *)
Theorem failed_run_writes_only_log (t : Transform) (e : Env) (df : dfval)
    (err : exn) :
  (run t e df).1 = Throw err ->
  this (run t e df).2 = t
  /\ datasets (env (run t e df).2) = datasets e
  /\ plots (env (run t e df).2) = plots e
  /\ stats (env (run t e df).2) = stats e.
Proof.
  destruct t as [nm rq pr inp out fields].
  destruct fields; unfold_run; run_cases; intros Hres; try discriminate Hres; done.
Qed.

(** X3: running a transform a second time, on the same dataframe and in
    the environment the first run left, gives the same outcome and leaves
    the transform, the datasets, the plots and the statistics as the first
    run left them; only the log grows, by a second entry. *)
Theorem rerun_same_result (t : Transform) (e : Env) (df : dfval) :
  let first := run t e df in
  let second := run (this first.2) (env first.2) df in
  second.1 = first.1
  /\ this second.2 = this first.2
  /\ datasets (env second.2) = datasets (env first.2)
  /\ plots (env second.2) = plots (env first.2)
  /\ stats (env second.2) = stats (env first.2)
  /\ log (env second.2) = (log e ++ [name t; name t])%list.
Proof.
  destruct t as [nm rq pr inp out fields].
  destruct fields.
  14: {
    destruct df as [| |d]; try (unfold_run; rewrite <- app_assoc; done).
    unfold_run. destruct (set_data_values (data d) spec) as [spec'|err] eqn:Hset;
      simpl.
    - rewrite (set_data_values_same _ _ _ Hset). simpl.
      rewrite insert_insert_eq, <- app_assoc. done.
    - rewrite Hset. simpl. rewrite <- app_assoc. done. }
  all: unfold_run; run_cases; simplify_eq;
    rewrite <- ?app_assoc, ?insert_insert_eq; split_and!;
    first [done | congruence].
Qed.

(** X4: the rows a plotting transform stored in its specification during an
    earlier run do not show in a later one: once it has run on one
    dataframe, running it on another gives the outcome, the transform and
    the environment that running the fresh transform on that other
    dataframe gives. *)
Theorem plot_run_forgets_earlier_rows (label : string) (spec : json)
    (t : Transform) (e1 e2 : Env) (d1 d2 : DataFrame) :
  own t = CPlot label spec ->
  (run t e1 (DFrame d1)).1 = Ok DUndefined ->
  let t1 := this (run t e1 (DFrame d1)).2 in
  (run t1 e2 (DFrame d2)).1 = (run t e2 (DFrame d2)).1
  /\ this (run t1 e2 (DFrame d2)).2 = this (run t e2 (DFrame d2)).2
  /\ env (run t1 e2 (DFrame d2)).2 = env (run t e2 (DFrame d2)).2.
Proof.
  destruct t as [nm rq pr inp out fields]. simpl. intros ->.
  unfold_run. destruct (set_data_values (data d1) spec) as [spec'|err] eqn:Hset;
    simpl; [|discriminate].
  intros _. rewrite (set_data_values_again _ (data d2) _ _ Hset).
  destruct (set_data_values_any _ (data d2) _ _ Hset) as [spec'' ->]. done.
Qed.

(** X5: the run of a plotting transform changes no slot of its
    specification but [data]: the keys of the specification and their order
    stay, and every other key keeps its value, whatever [df] is. *)
Theorem plot_run_keeps_other_slots (t : Transform) (label : string)
    (fields : list (string * json)) (e : Env) (df : dfval) :
  own t = CPlot label (JObj fields) ->
  exists fields',
    own (this (run t e df).2) = CPlot label (JObj fields')
    /\ map fst fields' = map fst fields
    /\ forall key, key <> "data" -> obj_get key fields' = obj_get key fields.
Proof.
  destruct t as [nm rq pr inp out own]. simpl. intros ->.
  destruct df as [| |d]; try (unfold_run; by exists fields).
  unfold_run.
  destruct (obj_get "data" fields) as [[| | |inner]|] eqn:Hdata; simpl;
    try by exists fields.
  eexists. split; [reflexivity|]. split.
  - by eapply obj_set_keys.
  - intros key Hkey. by apply obj_get_set_ne.
Qed.

(** X6: what the flags of a constructed transform promise about its run.
    A transform that takes no input (read, join) rejects every [df] other
    than [null] with the invariant violation.  A transform that declares an
    output returns a dataframe whenever its run succeeds, never [null] or
    [undefined]. *)
Theorem flags_govern_run (t : Transform) (e : Env) (df : dfval) :
  constructed t ->
  (input t = false -> df <> DNull ->
     exists err, (run t e df).1 = Throw err /\ InvariantViolation err = true)
  /\ (output t = true -> forall v, (run t e df).1 = Ok v -> exists d, v = DFrame d).
Proof.
  intros Hnew. invert_constructed Hnew; simpl.
  all: split; try discriminate.
  all: lazymatch goal with
       | |- _ -> _ <> _ -> _ =>
           intros _ Hdf; destruct df; try done; unfold_run; eauto
       | |- _ => intros _ v; unfold_run; run_cases; intros [= <-]; eauto
       end.
Qed.

(** X7: a run without a dataframe ([null] or [undefined] as [df]).  The
    stages that read [df] fail with a TypeError (the summarize stage builds
    its summarizer first, so a failure of that construction wins); notify
    hands [df] on as it is; sequence does not look at [df]: it returns its
    dataframe, or fails with the RangeError of a too long array, never with
    a TypeError. *)
Theorem run_without_dataframe (t : Transform) (e : Env) (df : dfval) :
  constructed t -> df = DNull \/ df = DUndefined ->
  match own t with
  | CData _ | CJoin _ _ _ _ => True
  | CNotify _ => (run t e df).1 = Ok df
  | CSequence _ _ =>
      (exists d, (run t e df).1 = Ok (DFrame d))
      \/ (run t e df).1 = Throw RangeError
  | CSummarize op column =>
      (run t e df).1 = (new_Summarize op column ≫= fun _ => Throw TypeError)
  | _ => (run t e df).1 = Throw TypeError
  end.
Proof.
  intros Hnew Hdf. invert_constructed Hnew; simpl; try done.
  all: destruct Hdf as [-> | ->]; unfold_run; eauto.
  all: lazymatch goal with
       | |- _ \/ _ =>
           unfold Array_from_length; destruct (2 ^ 32 <=? _)%Z; simpl; eauto
       | |- _ => destruct (new_Summarize _ _); reflexivity
       end.
Qed.

End RunLaws.

Section Stages.
Context {ext : External}.

(** X8: the sequence stage does not check its limit.  ToLength turns it
    into the length of the array: below 2^32 the run returns a dataframe of
    that many rows, from 2^32 on (the limit [Infinity] too) it fails with a
    RangeError.  A limit below 1, negative or not, the limit [-Infinity] and
    the limit NaN give a dataframe without rows, and no error. *)
Theorem sequence_run_length (newName : string) (limit : double) (t : Transform)
    (e : Env) (df : dfval) :
  TransformSequence (VStr newName) limit = Ok t ->
  ((ToLength limit < 2 ^ 32)%Z ->
     exists d, (run t e df).1 = Ok (DFrame d)
               /\ length (data d) = Z.to_nat (ToLength limit))
  /\ ((2 ^ 32 <= ToLength limit)%Z -> (run t e df).1 = Throw RangeError)
  /\ (limit = Infinity true -> (run t e df).1 = Throw RangeError)
  /\ (match limit with
      | Finite q => (q < Q2Qc (inject_Z 1))%Qc
      | NaN => True
      | Infinity positive => positive = false
      end ->
      exists d, (run t e df).1 = Ok (DFrame d) /\ data d = []).
Proof.
  intros [= <-]. unfold_run. unfold Array_from_length. split_and!.
  - intros Hlen. destruct (2 ^ 32 <=? ToLength limit)%Z eqn:Hbound; [lia|].
    simpl. eexists. split; [reflexivity|]. simpl.
    by rewrite length_map, length_seq.
  - intros Hlen. destruct (2 ^ 32 <=? ToLength limit)%Z eqn:Hbound; [done|lia].
  - intros ->. reflexivity.
  - intros Hsmall.
    assert (ToLength limit = 0%Z) as ->.
    { destruct limit as [q| |[|]]; simpl; try done.
      assert (Qfloor q < 1)%Z as Hfloor; [|lia].
      rewrite Zlt_Qlt. eapply Qle_lt_trans; [apply Qfloor_le|].
      unfold Qclt in Hsmall. simpl in Hsmall.
      by rewrite Qred_correct in Hsmall. }
    simpl. eexists. split; reflexivity.
Qed.

(** X9: the join stage and its [requires].  With [null] as [df], the run
    looks up the left dataset, then the right one.  When both names of
    [requires] are in the environment it returns what the join of the two
    dataframes returns; when one is missing it fails on the first missing
    one, which is a name of [requires]. *)
Theorem join_run_waits_for_requires (leftName : string) (leftCol : value)
    (rightName : string) (rightCol : value) (t : Transform) (e : Env) :
  TransformJoin leftName leftCol rightName rightCol = Ok t ->
  match datasets e !! leftName, datasets e !! rightName with
  | Some l, Some r =>
      (forall n, n ∈ requires t -> is_Some (datasets e !! n))
      /\ (run t e DNull).1
         = (df_join l leftName leftCol r rightName rightCol
            ≫= fun joined => Ok (DFrame joined))
  | None, _ =>
      leftName ∈ requires t
      /\ (run t e DNull).1 = Throw (DependencyUnavailable leftName)
  | Some _, None =>
      rightName ∈ requires t
      /\ (run t e DNull).1 = Throw (DependencyUnavailable rightName)
  end.
Proof.
  intros [= <-]. unfold_run.
  destruct (datasets e !! leftName) as [l|] eqn:Hl; simpl;
    destruct (datasets e !! rightName) as [r|] eqn:Hr; simpl.
  - split.
    + intros n [->|[->|[]%elem_of_nil]%elem_of_cons]%elem_of_cons;
        [by rewrite Hl|by rewrite Hr].
    + by destruct (df_join _ _ _ _ _ _).
  - split; [by repeat constructor|done].
  - split; [by repeat constructor|done].
  - split; [by repeat constructor|done].
Qed.

(** X10: what the run of an accepted summarize transform does.  The name
    the constructor accepted is a property [Summarize] has of its own or one
    it inherits.  For a property of its own, the run on a dataframe
    constructs the summarizer and hands it to [df.summarize].  For a name
    that is only inherited, the run fails with a TypeError, except for
    [constructor], where [df.summarize] is handed a String object. *)
Theorem summarize_run_after_construction (op column : value) (t : Transform)
    (e : Env) (d : DataFrame) :
  TransformSummarize op column = Ok t ->
  exists o c,
    op = VStr o /\ column = VStr c
    /\ match Summarize !! o with
       | Some construct =>
           (run t e (DFrame d)).1
           = (construct c ≫= fun summarizer =>
              df_summarize (inl summarizer) d ≫= fun summary =>
              Ok (DFrame summary))
       | None =>
           o ∈ Object_prototype
           /\ (run t e (DFrame d)).1
              = if bool_decide (o = "constructor")
                then df_summarize (inr c) d ≫= fun summary => Ok (DFrame summary)
                else Throw TypeError
       end.
Proof.
  intros H. unfold TransformSummarize, in_Summarize, expect_string, check in H.
  destruct op as [| | | |o|]; try discriminate H.
  destruct column as [| | | |c|]; simpl in H;
    destruct (bool_decide (is_Some (Summarize !! o))) eqn:Hown;
    destruct (bool_decide (o ∈ Object_prototype)) eqn:Hproto; simpl in H;
    try discriminate H.
  all: injection H as <-; exists o, c; split; [done|]; split; [done|].
  all: unfold_run; unfold new_Summarize.
  all: destruct (Summarize !! o) as [construct|] eqn:Hop.
  all: try (apply bool_decide_eq_true in Hown as [? ?]; discriminate).
  all: try (destruct (construct c) as [s|err]; simpl; [|done];
            by destruct (df_summarize (inl s) d)).
  apply bool_decide_eq_true in Hproto. split; [exact Hproto|].
  destruct (bool_decide (o = "constructor")); simpl; [|reflexivity].
  by destruct (df_summarize (inr c) d).
Qed.

Lemma foldl_Set_add_prefix (xs known : list value) :
  known `prefix_of` foldl Set_add known xs.
Proof.
  revert known. induction xs as [|x xs IH]; intros known; simpl; [done|].
  etrans; [|apply IH]. unfold Set_add. case_bool_decide; [done|].
  by apply prefix_app_r.
Qed.

Lemma Set_from_head (x : value) (xs : list value) :
  head (Set_from (x :: xs)) = Some x.
Proof.
  unfold Set_from. simpl.
  destruct (foldl_Set_add_prefix xs (Set_add [] x)) as [rest ->]. reflexivity.
Qed.

Lemma two_labels_split_rows (labelCol : string) (rows : list Row) (a b : value) :
  a <> b -> a <> VNum NaN -> b <> VNum NaN ->
  (forall row, row ∈ rows -> row_get labelCol row = a \/ row_get labelCol row = b) ->
  (length (filter (fun row => strict_equal (row_get labelCol row) a = true) rows)
   + length (filter (fun row => strict_equal (row_get labelCol row) b = true) rows))%nat
  = length rows.
Proof.
  intros Hab Ha Hb. induction rows as [|row rows IH]; intros Hall; [done|].
  rewrite !filter_cons.
  specialize (IH (fun r Hr => Hall r (list_elem_of_further _ _ _ Hr))).
  destruct (Hall row (list_elem_of_here _ _)) as [Hrow|Hrow].
  - rewrite decide_True by (apply strict_equal_true; by rewrite Hrow).
    rewrite decide_False by (rewrite strict_equal_true; intros [? _]; congruence).
    simpl. lia.
  - rewrite decide_False by (rewrite strict_equal_true; intros [? _]; congruence).
    rewrite decide_True by (apply strict_equal_true; by rewrite Hrow).
    simpl. lia.
Qed.

Lemma NaN_label_no_rows (labelCol : string) (rows : list Row) :
  filter (fun row => strict_equal (row_get labelCol row) (VNum NaN) = true) rows
  = [].
Proof.
  induction rows as [|row rows IH]; [done|].
  rewrite filter_cons, IH. rewrite decide_False; [done|].
  rewrite strict_equal_true. intros [-> Hnan]. done.
Qed.

(** X11: how the paired t-test splits the rows.  With exactly two distinct
    labels, the left sample is the group of the label of the first row.
    When no label is NaN, neither sample is empty and the two together hold
    one value for each row of the dataframe: no row is dropped, none is
    counted twice.  A label NaN counts as a label, but its sample is empty,
    as no row's label is [===] to it.  The two samples are what the
    two-sample test of the library is called with. *)
Theorem ttest_paired_splits_rows (label labelCol valueCol : string)
    (t : Transform) (e : Env) (d : DataFrame) :
  TransformTTestPaired label labelCol valueCol = Ok t ->
  let labels := map (row_get labelCol) (data d) in
  let values_of l :=
    map (row_get valueCol)
        (filter (fun row => strict_equal (row_get labelCol row) l = true)
                (data d)) in
  length (remove_dups labels) = 2%nat ->
  exists a b,
    Set_from labels = [a; b] /\ a <> b
    /\ head labels = Some a
    /\ (VNum NaN ∉ labels ->
        values_of a <> [] /\ values_of b <> []
        /\ (length (values_of a) + length (values_of b))%nat = length (data d))
    /\ (a = VNum NaN -> values_of a = [])
    /\ (b = VNum NaN -> values_of b = [])
    /\ (run t e (DFrame d)).1
       = (tTestTwoSample (values_of a) (values_of b) (number 0)
          ≫= fun _ => Ok (DFrame d)).
Proof.
  intros [= <-] labels values_of Hsize. rewrite <- Set_from_size in Hsize.
  pose proof (Set_from_NoDup labels) as Hnd.
  pose proof (Set_from_elem labels) as Helem.
  destruct (Set_from labels) as [|a [|b [|c known]]] eqn:Hknown;
    try discriminate Hsize.
  exists a, b. split; [done|].
  assert (a <> b) as Hab.
  { apply NoDup_cons in Hnd as [Ha _]. intros ->. apply Ha. left. }
  split; [done|]. split.
  { destruct labels as [|x xs] eqn:Hlabels.
    - discriminate Hknown.
    - pose proof (Set_from_head x xs) as Hhead. rewrite Hknown in Hhead.
      simpl in *. congruence. }
  assert (a ∈ labels) as Hain by (apply Helem; left).
  assert (b ∈ labels) as Hbin by (apply Helem; right; left).
  split.
  { intros Hnan.
    assert (a <> VNum NaN) as Ha. { intros Heq. apply Hnan. by rewrite <- Heq. }
    assert (b <> VNum NaN) as Hb. { intros Heq. apply Hnan. by rewrite <- Heq. }
    split; [by apply labelled_rows_nonempty|].
    split; [by apply labelled_rows_nonempty|].
    unfold values_of. rewrite !length_map.
    apply two_labels_split_rows; try done. intros row Hrow.
    assert (row_get labelCol row ∈ [a; b]) as Hin.
    { apply Helem. unfold labels. apply list_elem_of_fmap. eauto. }
    apply elem_of_cons in Hin as [?|[?|[]%elem_of_nil]%elem_of_cons]; auto. }
  split. { intros ->. unfold values_of. by rewrite NaN_label_no_rows. }
  split. { intros ->. unfold values_of. by rewrite NaN_label_no_rows. }
  unfold_run. fold labels. rewrite Hknown. simpl. fold (values_of a) (values_of b).
  by destruct (tTestTwoSample (values_of a) (values_of b) (number 0)).
Qed.

End Stages.

Section EqualLaws.
Context {ext : External}.

Lemma includes_self (cs : list string) :
  forallb (fun x => bool_decide (x ∈ cs)) cs = true.
Proof. by apply includes_every. Qed.

Lemma bool_decide_same {A} `{EqDecision A} (x : A) : bool_decide (x = x) = true.
Proof. by apply bool_decide_eq_true_2. Qed.

Lemma strict_equal_same (x : value) :
  strict_equal x x = negb (bool_decide (x = VNum NaN)).
Proof.
  unfold strict_equal.
  destruct x as [| | |[| |]| |]; simpl; by rewrite ?bool_decide_eq_true_2.
Qed.

(** X12: [equal] is reflexive up to NaN: provided the expressions of filter
    and mutate stages equal themselves, a transform equals itself exactly
    when none of the fields that [equal] compares with [===] is NaN.  A
    sequence whose limit is NaN, or a join with NaN as a column, does not
    equal itself. *)
Theorem equal_reflexive (t : Transform) :
  (forall e, expr_equal e (Some e) = true) ->
  equal t t = Ok (no_NaN_field t).
Proof.
  intros Hexpr. destruct t as [nm rq pr inp out fields].
  destruct fields; unfold equal, equalColumns, TransformBase_equal, no_NaN_field;
    simpl; rewrite ?strict_equal_same, ?Hexpr, ?includes_self, ?bool_decide_same;
    simpl; rewrite ?andb_true_r; try done.
  f_equal. by destruct limit.
Qed.

(** X13: [equalColumns] is transitive (it is not symmetric). *)
Theorem equalColumns_transitive (t1 t2 t3 : Transform) :
  equalColumns t1 t2 = Ok true -> equalColumns t2 t3 = Ok true ->
  equalColumns t1 t3 = Ok true.
Proof.
  unfold equalColumns.
  destruct (columns_of t1) as [cs1|], (columns_of t2) as [cs2|],
    (columns_of t3) as [cs3|]; try discriminate.
  intros [= H12] [= H23]. f_equal.
  rewrite !andb_true_iff, !bool_decide_eq_true, includes_every in *.
  destruct H12 as [[Hn12 Hl12] Hi12], H23 as [[Hn23 Hl23] Hi23].
  split_and!; [congruence|congruence|auto].
Qed.

(** X14: [equal] throws exactly when the receiver is a stage with columns
    (drop, groupBy, select, sort, unique) and the other transform has no
    columns: comparing a drop with a filter is an error, not [false].  In
    every other case [equal] answers. *)
Theorem equal_throws_iff (t1 t2 : Transform) :
  (exists err, equal t1 t2 = Throw err)
  <-> is_Some (columns_of t1) /\ columns_of t2 = None.
Proof.
  destruct t1 as [nm rq pr inp out fields].
  destruct fields; unfold equal, equalColumns, columns_of; simpl;
    destruct (own t2); split;
    try (intros [err Herr]; discriminate Herr);
    try (intros [[cs Hcs] Hnone]; discriminate);
    eauto.
Qed.

(** X15: transforms that are [equal] have the same name: stages of
    different kinds are never equal, whatever their fields. *)
Theorem equal_true_same_name (t1 t2 : Transform) :
  equal t1 t2 = Ok true -> name t1 = name t2.
Proof.
  destruct t1 as [nm rq pr inp out fields].
  destruct fields; unfold equal, equalColumns, TransformBase_equal, columns_of;
    simpl; destruct (own t2); try discriminate;
    intros [= Heq]; rewrite ?andb_true_iff in Heq;
    repeat match goal with H : _ /\ _ |- _ => destruct H end;
    by match goal with H : bool_decide (_ = name t2) = true |- _ =>
         apply bool_decide_eq_true in H end.
Qed.

(** X16: for the read, join, notify, sequence and summarize stages, [equal]
    is identity of the fields: a constructed transform of one of these
    kinds, none of whose fields compared with [===] is NaN, equals a
    constructed transform exactly when the two have the same fields
    throughout. *)
Theorem equal_is_identity (t1 t2 : Transform) :
  constructed t1 -> constructed t2 -> compares_own_fields t1 = true ->
  no_NaN_field t1 = true ->
  (equal t1 t2 = Ok true <-> t1 = t2).
Proof.
  intros H1 H2 Hkind Hnan.
  invert_constructed H1; try discriminate Hkind; clear Hkind.
  all: unfold no_NaN_field in Hnan; simpl in Hnan.
  all: invert_constructed H2.
  all: unfold equal, TransformBase_equal, newName_of, label_of; simpl.
  all: try (split; [intros [= ?]|intros [= ?]]; discriminate).
  all: split;
    [intros [= Heq];
     rewrite ?andb_true_iff, ?bool_decide_eq_true, ?strict_equal_true in Heq;
     repeat match goal with H : _ /\ _ |- _ => destruct H end;
     first [congruence
           |destruct limit; try discriminate;
            match goal with
            | H : bool_decide _ = true |- _ => apply bool_decide_eq_true in H
            end; congruence]
    |intros Heq; injection Heq; intros; subst;
     rewrite ?strict_equal_same, ?bool_decide_same; simpl;
     rewrite ?andb_true_r; try done].
  - by rewrite Hnan.
  - f_equal. by destruct limit0.
Qed.

(** X17: [equal] on sort stages does not look at the direction: a sort on
    some columns equals a sort on the same columns in any order, ascending
    or descending. *)
Theorem sort_equal_ignores_reverse (cs cs' : list string) (r r' : bool)
    (t t' : Transform) :
  TransformSort cs (VBool r) = Ok t -> TransformSort cs' (VBool r') = Ok t' ->
  cs ≡ₚ cs' ->
  equal t t' = Ok true.
Proof.
  intros [= <-] [= <-] Hperm. unfold equal, equalColumns; simpl.
  rewrite (Permutation_length Hperm).
  rewrite !bool_decide_eq_true_2 by done. simpl. f_equal.
  apply includes_every. intros x Hx. by rewrite <- Hperm.
Qed.

(** X18: the plotting stages and the t-tests inherit [equal] from the base
    class, which compares names only: two plots are equal exactly when they
    are of the same kind, so two bar plots are equal whatever their labels
    and axes, and two t-tests of one kind are equal whatever their label and
    columns. *)
Theorem equal_ignores_plot_and_test_parameters :
  (forall t1 t2, plot_variant t1 -> plot_variant t2 ->
     equal t1 t2 = Ok (bool_decide (name t1 = name t2)))
  /\ (forall label axisX axisY label' axisX' axisY' t1 t2,
        TransformBar label axisX axisY = Ok t1 ->
        TransformBar label' axisX' axisY' = Ok t2 ->
        equal t1 t2 = Ok true)
  /\ (forall label colName mean label' colName' mean' t1 t2,
        TransformTTestOneSample label colName mean = Ok t1 ->
        TransformTTestOneSample label' colName' mean' = Ok t2 ->
        equal t1 t2 = Ok true)
  /\ (forall label labelCol valueCol label' labelCol' valueCol' t1 t2,
        TransformTTestPaired label labelCol valueCol = Ok t1 ->
        TransformTTestPaired label' labelCol' valueCol' = Ok t2 ->
        equal t1 t2 = Ok true).
Proof.
  split_and!.
  - intros t1 t2 H1 H2.
    destruct H1 as [(?&?&?&H1)|[(?&?&?&H1)|[(?&?&H1)|[(?&?&?&H1)|(?&?&?&?&H1)]]]];
      unfold_new H1; injection H1 as <-; reflexivity.
  - intros ? ? ? ? ? ? t1 t2 H1 H2.
    unfold_new H1; injection H1 as <-. unfold_new H2; injection H2 as <-.
    reflexivity.
  - intros ? ? ? ? ? ? t1 t2 [= <-] [= <-]. reflexivity.
  - intros ? ? ? ? ? ? t1 t2 [= <-] [= <-]. reflexivity.
Qed.

End EqualLaws.

Section Construction.
Context {ext : External}.

Lemma check_then {A} (condition : bool) (message : string) (k : result A) :
  (exists a, (check condition message ≫= fun _ => k) = Ok a)
  <-> condition = true /\ exists a, k = Ok a.
Proof.
  destruct condition; simpl; split.
  - intros Hk. by split.
  - by intros [_ Hk].
  - intros [a Ha]. discriminate Ha.
  - intros [Hc _]. discriminate Hc.
Qed.

Lemma TransformPlot_accepts (name : string) (label : value)
    (spec fillin : list (string * json)) :
  name <> "" ->
  (exists t, TransformPlot name label spec fillin = Ok t)
  <-> nonempty_string label = true.
Proof.
  intros Hname. unfold TransformPlot, TransformBase, nonempty_string, check.
  rewrite (bool_decide_eq_false_2 (name = "")) by done.
  destruct label as [| |b|n|l|k]; simpl;
    try (rewrite andb_false_r);
    try (split; [intros [t Ht]; discriminate Ht|intros Hl; discriminate Hl]).
  rewrite andb_true_r.
  destruct (bool_decide (l = "")); simpl; split; eauto;
    first [intros [t Ht]; discriminate Ht|intros Hl; discriminate Hl].
Qed.

(** X19: what the plotting constructors accept.  Bar and box need a
    non-empty string as label and as each axis; dot as label and axis;
    histogram as label and column, and a number above 0 as bins; scatter as
    label and each axis, and [null] or a non-empty string as color.
    Anything else fails. *)
Theorem plot_constructors_validate (label axisX axisY column bins color : value) :
  ((exists t, TransformBar label axisX axisY = Ok t)
   <-> nonempty_string label && nonempty_string axisX && nonempty_string axisY = true)
  /\ ((exists t, TransformBox label axisX axisY = Ok t)
      <-> nonempty_string label && nonempty_string axisX && nonempty_string axisY = true)
  /\ ((exists t, TransformDot label axisX = Ok t)
      <-> nonempty_string label && nonempty_string axisX = true)
  /\ ((exists t, TransformHistogram label column bins = Ok t)
      <-> nonempty_string label && nonempty_string column
          && match bins with
             | VNum n => greater_than_zero n
             | _ => false
             end = true)
  /\ ((exists t, TransformScatter label axisX axisY color = Ok t)
      <-> nonempty_string label && nonempty_string axisX && nonempty_string axisY
          && (bool_decide (color = VNull) || nonempty_string color) = true).
Proof.
  unfold TransformBar, TransformBox, TransformDot, TransformHistogram,
    TransformScatter.
  cbv zeta. rewrite !check_then, !TransformPlot_accepts by done.
  rewrite !andb_true_iff.
  assert (is_string color && truthy color = nonempty_string color) as ->
    by apply andb_comm.
  split_and!; try tauto.
  destruct bins; simpl; intuition discriminate.
Qed.

(** X20: what the other checking constructors accept: read, mutate, notify
    and sequence need a string (the empty string will do) as dataset, new
    name or label, and sort needs a Boolean as direction. *)
Theorem typed_constructors_validate (v : value) (e : Expr) (cs : list string)
    (limit : double) :
  ((exists t, TransformData v = Ok t) <-> is_string v = true)
  /\ ((exists t, TransformMutate v e = Ok t) <-> is_string v = true)
  /\ ((exists t, TransformNotify v = Ok t) <-> is_string v = true)
  /\ ((exists t, TransformSequence v limit = Ok t) <-> is_string v = true)
  /\ ((exists t, TransformSort cs v = Ok t) <-> is_boolean v = true).
Proof.
  split_and!; destruct v; simpl; split;
    try (intros [t Ht]; first [discriminate Ht|done]);
    try (intros Hv; first [discriminate Hv|eexists; reflexivity]).
Qed.

(** X21: the flags of the constructed transforms.  Only notify produces a
    dataset, named by its label; only read and join take no input; notify,
    the plots and the t-tests declare no output, every other stage does. *)
Theorem flags_of_constructed (t : Transform) :
  constructed t ->
  produces t = match own t with CNotify label => Some label | _ => None end
  /\ input t = match own t with CData _ | CJoin _ _ _ _ => false | _ => true end
  /\ output t = match own t with
                | CNotify _ | CPlot _ _ | CTTestOneSample _ _ _
                | CTTestPaired _ _ _ => false
                | _ => true
                end.
Proof. intros Hnew. invert_constructed Hnew; done. Qed.

(** X22: the specification of a constructed plot: the label is not empty,
    the name of the transform is one of the five kinds, and the
    specification carries that name under [name], beside a mark and an
    encoding. *)
Theorem plot_spec_shape (t : Transform) :
  plot_variant t ->
  exists label fields,
    own t = CPlot label (JObj fields)
    /\ label <> ""
    /\ name t ∈ ["bar"; "box"; "dot"; "histogram"; "scatter"]
    /\ obj_get "name" fields = Some (JStr (name t))
    /\ is_Some (obj_get "mark" fields)
    /\ is_Some (obj_get "encoding" fields).
Proof.
  intros [(?&?&?&H)|[(?&?&?&H)|[(?&?&H)|[(?&?&?&H)|(?&?&?&?&H)]]]].
  all: unfold_new H; injection H as <-.
  all: eexists _, _; split; [reflexivity|]; simpl.
  all: split; [intros ->; by match goal with
                            | Hb : negb (bool_decide ("" = "")) = true |- _ =>
                                discriminate Hb
                            end|].
  all: split_and!; [by repeat constructor|reflexivity|by eexists|by eexists].
Qed.

(** X23: the color of a scatter plot.  The specification always records
    the color argument under [color]; its encoding has a color channel, on
    that column, exactly when the color is not [null]. *)
Theorem scatter_color_channel (label axisX axisY color : value) (t : Transform) :
  TransformScatter label axisX axisY color = Ok t ->
  exists l fields encoding,
    own t = CPlot l (JObj fields)
    /\ obj_get "encoding" fields = Some (JObj encoding)
    /\ obj_get "color" fields = Some (JPrim color)
    /\ obj_get "color" encoding =
         if bool_decide (color = VNull) then None
         else Some (JObj [("field", JPrim color); ("type", JStr "nominal")]).
Proof.
  intros H. unfold_new H; injection H as <-.
  all: destruct color as [| | |[| |]|c|k]; simpl in *; try discriminate.
  all: try (destruct (bool_decide (c = "")); simpl in *; discriminate).
  all: eexists _, _, _; split_and!; reflexivity.
Qed.

End Construction.

(** ** The theorems at work on the sample data *)

#[local] Existing Instance sampleExternal.

(** On [paired_scores], with two rows in each of its two groups, the paired
    test records the answer of the library and returns the dataframe; on
    [one_group] it fails. *)
Lemma ttest_paired_run_witness :
  length (remove_dups (map (row_get "group") (data paired_scores))) = 2%nat
  /\ length (remove_dups (map (row_get "group") (data one_group))) = 1%nat
  /\ (exists t,
        TransformTTestPaired "p-value" "group" "score" = Ok t
        /\ (run t loaded (DFrame paired_scores)).1 = Ok (DFrame paired_scores)
        /\ stats (env (run t loaded (DFrame paired_scores)).2)
           = <["p-value" := VNum (number 0)]> (stats loaded))
  /\ (exists t err,
        TransformTTestPaired "p-value" "group" "score" = Ok t
        /\ (run t emptyEnv (DFrame one_group)).1 = Throw err
        /\ InvalidGrouping err = true).
Proof.
  split; [reflexivity|]. split; [reflexivity|]. split.
  - destruct (ttest_paired_run "p-value" "group" "score" loaded paired_scores)
      as (t & Ht & _ & Hok).
    destruct (Hok eq_refl) as (a & b & [= <- <-] & Hres & Hstats & _).
    exists t. split; [assumption|]. split; [exact Hres|].
    apply Hstats. reflexivity.
  - destruct (ttest_paired_run "p-value" "group" "score" emptyEnv one_group)
      as (t & Ht & Hfail & _).
    assert (length (remove_dups (map (row_get "group") (data one_group))) <> 2%nat)
      as Hone by discriminate.
    destruct (Hfail Hone) as (err & Hres & Herr & _).
    exists t, err. split_and!; assumption.
Defined.

(** C1: two distinct labels do not make the paired test succeed with a
    number.  On [scores] the group [b] has a single row: the library throws
    and nothing is recorded.  On [nan_scores] the labels are NaN and [a]:
    no row's label is [===] to NaN, the left sample is empty, and what is
    recorded is [null]. *)
Lemma ttest_paired_two_labels_no_number :
  length (remove_dups (map (row_get "group") (data scores))) = 2%nat
  /\ length (remove_dups (map (row_get "group") (data nan_scores))) = 2%nat
  /\ exists t,
       TransformTTestPaired "p-value" "group" "score" = Ok t
       /\ (run t loaded (DFrame scores)).1
          = Throw (Error "sampleVariance requires at least two data points")
       /\ stats (env (run t loaded (DFrame scores)).2) = stats loaded
       /\ (run t loaded (DFrame nan_scores)).1 = Ok (DFrame nan_scores)
       /\ stats (env (run t loaded (DFrame nan_scores)).2) !! "p-value"
          = Some VNull.
Proof.
  split; [reflexivity|]. split; [reflexivity|].
  eexists. split_and!; reflexivity.
Qed.

Lemma read_rejects_empty_dataframe :
  exists t,
    TransformData (VStr "scores") = Ok t
    /\ data no_rows = []
    /\ (run t loaded (DFrame no_rows)).1
       = Throw (Error "Cannot provide input dataframe to reader")
    /\ InvariantViolation (Error "Cannot provide input dataframe to reader") = true.
Proof. eexists. split_and!; reflexivity. Qed.

Lemma read_run_witness :
  exists t,
    TransformData (VStr "scores") = Ok t
    /\ (run t loaded DNull).1 = Ok (DFrame scores).
Proof.
  destruct (read_run "scores" loaded DNull) as (t & Ht & _ & Hnull).
  exists t. split; [assumption|]. exact (Hnull eq_refl).
Defined.

(** C4: the run of a bar plot returns [undefined], not the dataframe. *)
Lemma plot_returns_undefined :
  exists t,
    TransformBar (VStr "chart") (VStr "group") (VStr "score") = Ok t
    /\ (run t loaded (DFrame scores)).1 = Ok DUndefined
    /\ (run t loaded (DFrame scores)).1 <> Ok (DFrame scores).
Proof. eexists. split_and!; [reflexivity|reflexivity|discriminate]. Qed.

Lemma plot_run_witness :
  exists t,
    plot_variant t
    /\ (run t loaded (DFrame scores)).1 = Ok DUndefined
    /\ exists spec,
         plots (env (run t loaded (DFrame scores)).2) !! "chart" = Some (JObj spec)
         /\ obj_get "data" spec = Some (JObj [("values", JRows (data scores))]).
Proof.
  assert (plot_variant
            {| name := "dot"; requires := []; produces := None; input := true;
               output := false;
               own := CPlot "chart" (Object_assign
                 [[("data", JObj [("values", JNull)]);
                   ("mark", JObj [("type", JStr "circle"); ("opacity", JNum (number 1))]);
                   ("transform", JArr [JObj [
                      ("window", JArr [JObj [("op", JStr "rank"); ("as", JStr "id")]]);
                      ("groupby", JArr [JStr "group"])]]);
                   ("encoding", JObj [
                      ("x", JObj [("field", JStr "group"); ("type", JStr "ordinal")]);
                      ("y", JObj [("field", JStr "id"); ("type", JStr "ordinal");
                                  ("axis", JNull); ("sort", JStr "descending")])])];
                  [("axisX", JStr "group")]; [("name", JStr "dot")]]) |}) as Hdot.
  { right; right; left. exists (VStr "chart"), (VStr "group"). reflexivity. }
  eexists. split; [exact Hdot|].
  destruct (plot_run _ loaded scores Hdot) as (label & fields & Hown & Hdata & Hrun).
  injection Hown as <- <-. rewrite Hrun. simpl.
  split; [reflexivity|]. eexists. split; reflexivity.
Defined.

(** C5: the run of a bar plot changes the specification the transform
    holds. *)
Lemma plot_run_writes_spec :
  exists t,
    TransformBar (VStr "chart") (VStr "group") (VStr "score") = Ok t
    /\ this (run t loaded (DFrame scores)).2 <> t.
Proof.
  eexists. split; [reflexivity|].
  intros Heq. apply (f_equal own) in Heq. discriminate Heq.
Qed.

(** C8: the read stage requires nothing, its own dataset included. *)
Lemma read_requires_nothing :
  exists t,
    TransformData (VStr "scores") = Ok t
    /\ requires t = [] /\ "scores" ∉ requires t.
Proof.
  eexists. split_and!; [reflexivity|reflexivity|]. apply not_elem_of_nil.
Qed.

Lemma requires_of_constructed_witness :
  exists t,
    TransformJoin "left" (VStr "key") "right" (VStr "key") = Ok t
    /\ constructed t
    /\ requires t = ["left"; "right"].
Proof.
  eexists. split; [reflexivity|].
  assert (constructed
            {| name := "join"; requires := ["left"; "right"]; produces := None;
               input := false; output := true;
               own := CJoin "left" (VStr "key") "right" (VStr "key") |})
    as Hnew
    by (by apply (new_join "left" (VStr "key") "right" (VStr "key"))).
  split; [exact Hnew|]. exact (requires_of_constructed _ Hnew).
Defined.

Lemma summarize_admits_inherited_names_witness :
  Summarize !! "median" = None /\ ("median" ∉ Object_prototype)
  /\ is_Some (Summarize !! "count")
  /\ (exists err, TransformSummarize (VStr "median") (VStr "score") = Throw err
                  /\ UnknownOperation err = true)
  /\ TransformSummarize (VStr "count") (VStr "score")
     = Ok {| name := "summarize"; requires := []; produces := None;
             input := true; output := true; own := CSummarize "count" "score" |}
  /\ Summarize !! "toString" = None
  /\ exists t,
       TransformSummarize (VStr "toString") (VStr "score") = Ok t
       /\ (run t loaded (DFrame scores)).1 = Throw TypeError.
Proof.
  assert (Summarize !! "median" = None) as Hno by reflexivity.
  assert ("median" ∉ Object_prototype) as Hnot
    by (by apply (bool_decide_unpack _)).
  assert (is_Some (Summarize !! "count")) as Hyes by (eexists; reflexivity).
  assert (Summarize !! "toString" = None) as Hown by reflexivity.
  split_and!; [exact Hno|exact Hnot|exact Hyes| | |exact Hown|].
  - exact (proj1 (summarize_admits_inherited_names "median" "score" (VStr "score")
                    loaded (DFrame scores)) Hno Hnot).
  - exact (proj1 (proj2 (summarize_admits_inherited_names "count" "score"
                           (VStr "score") loaded (DFrame scores)))
             (or_introl Hyes)).
  - destruct (proj2 (proj2 (summarize_admits_inherited_names "toString" "score"
                              (VStr "score") loaded (DFrame scores))))
      as (t & Ht & Hrun).
    exists t. split; [exact Ht|exact (Hrun Hown)].
Defined.

(** C9: the sequence stage fails with a RangeError for the limit 2^32, and
    with the name [__proto__] its rows have no column at all. *)
Lemma sequence_run_breaks :
  exists t t',
    TransformSequence (VStr "n") (number (2 ^ 32)) = Ok t
    /\ (run t loaded DNull).1 = Throw RangeError
    /\ TransformSequence (VStr "__proto__") (number 2) = Ok t'
    /\ (run t' loaded DNull).1 = Ok (DFrame (new_DataFrame [∅; ∅] None)).
Proof. eexists _, _. split_and!; reflexivity. Qed.

Lemma sequence_run_witness :
  "n" <> "__proto__" /\ (Z.of_nat 3 < 2 ^ 32)%Z
  /\ exists t d,
       TransformSequence (VStr "n") (number (Z.of_nat 3)) = Ok t
       /\ (run t loaded DNull).1 = Ok (DFrame d)
       /\ length (data d) = 3%nat
       /\ data d !! 2%nat = Some ({[ "n" := VNum (number 3) ]} : Row).
Proof.
  assert ("n" <> "__proto__") as Hname by discriminate.
  assert (Z.of_nat 3 < 2 ^ 32)%Z as Hlimit by reflexivity.
  split; [exact Hname|]. split; [exact Hlimit|].
  destruct (sequence_run "n" 3 loaded DNull Hname Hlimit)
    as (t & d & Ht & Hrun & Hlen & Hrows).
  exists t, d. split_and!; try assumption. apply (Hrows 2%nat). lia.
Defined.



Lemma equalColumns_is_set_equality_witness :
  exists t1 t2,
    TransformSelect ["group"; "score"] = Ok t1
    /\ TransformSelect ["score"; "group"] = Ok t2
    /\ NoDup ["group"; "score"] /\ NoDup ["score"; "group"]
    /\ (forall x, x ∈ ["group"; "score"] <-> x ∈ ["score"; "group"])
    /\ equalColumns t1 t2 = Ok true.
Proof.
  assert (NoDup ["group"; "score"]) as Hnd1 by (by apply (bool_decide_unpack _)).
  assert (NoDup ["score"; "group"]) as Hnd2 by (by apply (bool_decide_unpack _)).
  assert (forall x : string, x ∈ ["group"; "score"] <-> x ∈ ["score"; "group"]) as Hset.
  { intros x. rewrite !elem_of_cons, !elem_of_nil. tauto. }
  eexists _, _. split_and!; [reflexivity|reflexivity|assumption..|].
  eapply (proj1 equalColumns_is_set_equality); try reflexivity; assumption.
Defined.

(** ** The further properties at work on the sample data *)

Lemma sample_expr_equal (e : string) : expr_equal e (Some e) = true.
Proof. by apply bool_decide_eq_true_2. Qed.

Lemma failed_run_writes_only_log_witness :
  exists t,
    TransformDrop ["score"] = Ok t
    /\ (run t loaded DNull).1 = Throw TypeError
    /\ this (run t loaded DNull).2 = t
    /\ datasets (env (run t loaded DNull).2) = datasets loaded
    /\ plots (env (run t loaded DNull).2) = plots loaded
    /\ stats (env (run t loaded DNull).2) = stats loaded.
Proof.
  eexists. split; [reflexivity|]. split; [reflexivity|].
  apply (failed_run_writes_only_log _ loaded DNull TypeError). reflexivity.
Defined.

Lemma plot_run_forgets_earlier_rows_witness :
  exists t,
    TransformBar (VStr "chart") (VStr "group") (VStr "score") = Ok t
    /\ (run t loaded (DFrame scores)).1 = Ok DUndefined
    /\ (run (this (run t loaded (DFrame scores)).2) emptyEnv (DFrame one_group)).1
       = (run t emptyEnv (DFrame one_group)).1
    /\ this (run (this (run t loaded (DFrame scores)).2) emptyEnv (DFrame one_group)).2
       = this (run t emptyEnv (DFrame one_group)).2
    /\ env (run (this (run t loaded (DFrame scores)).2) emptyEnv (DFrame one_group)).2
       = env (run t emptyEnv (DFrame one_group)).2.
Proof.
  eexists. split; [reflexivity|]. split; [reflexivity|].
  eapply (plot_run_forgets_earlier_rows "chart"); reflexivity.
Defined.

Lemma plot_run_keeps_other_slots_witness :
  exists t fields fields',
    TransformBar (VStr "chart") (VStr "group") (VStr "score") = Ok t
    /\ own t = CPlot "chart" (JObj fields)
    /\ own (this (run t loaded (DFrame scores)).2) = CPlot "chart" (JObj fields')
    /\ map fst fields' = map fst fields
    /\ obj_get "mark" fields' = obj_get "mark" fields.
Proof.
  eexists _, _. 
  edestruct (plot_run_keeps_other_slots
               {| name := "bar"; requires := []; produces := None; input := true;
                  output := false;
                  own := CPlot "chart" (Object_assign
                    [[("data", JObj [("values", JNull)]);
                      ("mark", JStr "bar");
                      ("encoding", JObj [
                         ("x", JObj [("field", JStr "group"); ("type", JStr "ordinal")]);
                         ("y", JObj [("field", JStr "score"); ("type", JStr "quantitative")]);
                         ("tooltip", JObj [("field", JStr "score"); ("type", JStr "quantitative")])])];
                     [("axisX", JStr "group"); ("axisY", JStr "score")];
                     [("name", JStr "bar")]]) |}
               "chart" _ loaded (DFrame scores) eq_refl)
    as (fields' & Hown & Hkeys & Hother).
  exists fields'. split; [reflexivity|]. split; [reflexivity|].
  split; [exact Hown|]. split; [exact Hkeys|]. apply Hother. discriminate.
Defined.

Lemma flags_govern_run_witness :
  exists t,
    TransformData (VStr "scores") = Ok t
    /\ constructed t /\ input t = false /\ output t = true
    /\ (exists err, (run t loaded (DFrame no_rows)).1 = Throw err
                    /\ InvariantViolation err = true)
    /\ (forall v, (run t loaded DNull).1 = Ok v -> exists d, v = DFrame d).
Proof.
  eexists. split; [reflexivity|].
  assert (constructed
            {| name := "read"; requires := []; produces := None; input := false;
               output := true; own := CData "scores" |}) as Hnew
    by (by apply (new_data (VStr "scores"))).
  split; [exact Hnew|]. split; [reflexivity|]. split; [reflexivity|]. split.
  - apply (proj1 (flags_govern_run _ loaded (DFrame no_rows) Hnew));
      [reflexivity|discriminate].
  - apply (proj2 (flags_govern_run _ loaded DNull Hnew)). reflexivity.
Defined.

Lemma run_without_dataframe_witness :
  exists t,
    TransformDrop ["score"] = Ok t
    /\ constructed t
    /\ (run t loaded DUndefined).1 = Throw TypeError.
Proof.
  eexists. split; [reflexivity|].
  assert (constructed
            {| name := "drop"; requires := []; produces := None; input := true;
               output := true; own := CDrop ["score"] |}) as Hnew
    by (by apply (new_drop ["score"])).
  split; [exact Hnew|].
  exact (run_without_dataframe _ loaded DUndefined Hnew (or_intror eq_refl)).
Defined.

Lemma sequence_run_length_witness :
  exists t d,
    TransformSequence (VStr "n") (Finite (Q2Qc (5 # 2))) = Ok t
    /\ (ToLength (Finite (Q2Qc (5 # 2))) < 2 ^ 32)%Z
    /\ (run t loaded DNull).1 = Ok (DFrame d)
    /\ length (data d) = 2%nat.
Proof.
  eassert (TransformSequence (VStr "n") (Finite (Q2Qc (5 # 2))) = Ok _) as Hnew
    by reflexivity.
  assert (ToLength (Finite (Q2Qc (5 # 2))) < 2 ^ 32)%Z as Hlen by reflexivity.
  eexists.
  destruct (proj1 (sequence_run_length _ _ _ loaded DNull Hnew) Hlen)
    as (d & Hrun & Hrows).
  exists d. split; [exact Hnew|]. split; [exact Hlen|]. split; [exact Hrun|].
  exact Hrows.
Defined.

Lemma join_run_waits_for_requires_witness :
  exists t,
    TransformJoin "scores" (VStr "group") "other" (VStr "group") = Ok t
    /\ "other" ∈ requires t
    /\ (run t loaded DNull).1 = Throw (DependencyUnavailable "other").
Proof.
  eexists. split; [reflexivity|].
  exact (join_run_waits_for_requires "scores" (VStr "group") "other"
           (VStr "group") _ loaded eq_refl).
Defined.

Lemma summarize_run_after_construction_witness :
  exists t,
    TransformSummarize (VStr "hasOwnProperty") (VStr "score") = Ok t
    /\ Summarize !! "hasOwnProperty" = None
    /\ (run t loaded (DFrame scores)).1 = Throw TypeError.
Proof.
  eassert (TransformSummarize (VStr "hasOwnProperty") (VStr "score") = Ok _)
    as Hnew by reflexivity.
  eexists. split; [exact Hnew|]. split; [reflexivity|].
  destruct (summarize_run_after_construction _ _ _ loaded scores Hnew)
    as (o & c & [= <-] & [= <-] & Hrun).
  exact (proj2 Hrun).
Defined.

Lemma ttest_paired_splits_rows_witness :
  length (remove_dups (map (row_get "group") (data scores))) = 2%nat
  /\ (VNum NaN ∉ map (row_get "group") (data scores))
  /\ exists t a b,
       TransformTTestPaired "p-value" "group" "score" = Ok t
       /\ head (map (row_get "group") (data scores)) = Some a
       /\ a <> b
       /\ (length (map (row_get "score")
                    (filter (fun row => strict_equal (row_get "group" row) a = true)
                            (data scores)))
           + length (map (row_get "score")
                      (filter (fun row => strict_equal (row_get "group" row) b = true)
                              (data scores))))%nat
          = length (data scores).
Proof.
  assert (VNum NaN ∉ map (row_get "group") (data scores)) as Hnan
    by (by apply (bool_decide_unpack _)).
  split; [reflexivity|]. split; [exact Hnan|]. eexists.
  edestruct (ttest_paired_splits_rows "p-value" "group" "score" _ loaded scores
               eq_refl eq_refl)
    as (a & b & _ & Hab & Hhead & Hsplit & _).
  exists a, b. split; [reflexivity|]. split; [exact Hhead|].
  split; [exact Hab|]. exact (proj2 (proj2 (Hsplit Hnan))).
Defined.

Lemma equal_reflexive_witness :
  exists t t',
    TransformFilter "flag" = Ok t /\ equal t t = Ok true
    /\ TransformSequence (VStr "n") NaN = Ok t' /\ equal t' t' = Ok false.
Proof.
  eexists _, _. split; [reflexivity|]. split.
  - exact (equal_reflexive _ sample_expr_equal).
  - split; [reflexivity|]. exact (equal_reflexive _ sample_expr_equal).
Defined.

Lemma equalColumns_transitive_witness :
  exists t1 t2 t3,
    TransformDrop ["a"; "a"] = Ok t1 /\ TransformDrop ["a"; "b"] = Ok t2
    /\ TransformDrop ["b"; "a"] = Ok t3
    /\ equalColumns t1 t2 = Ok true /\ equalColumns t2 t3 = Ok true
    /\ equalColumns t1 t3 = Ok true.
Proof.
  eexists _, _, _. split; [reflexivity|]. split; [reflexivity|].
  split; [reflexivity|]. split; [reflexivity|]. split; [reflexivity|].
  eapply equalColumns_transitive
    with (t2 := {| name := "drop"; requires := []; produces := None;
                   input := true; output := true; own := CDrop ["a"; "b"] |});
    reflexivity.
Defined.

Lemma equal_true_same_name_witness :
  exists t1 t2,
    TransformSelect ["group"; "score"] = Ok t1
    /\ TransformSelect ["score"; "group"] = Ok t2
    /\ equal t1 t2 = Ok true /\ name t1 = name t2.
Proof.
  eexists _, _. split; [reflexivity|]. split; [reflexivity|].
  split; [reflexivity|]. apply equal_true_same_name. reflexivity.
Defined.

Lemma equal_is_identity_witness :
  exists t1 t2,
    TransformNotify (VStr "done") = Ok t1 /\ TransformNotify (VStr "done") = Ok t2
    /\ constructed t1 /\ constructed t2 /\ compares_own_fields t1 = true
    /\ no_NaN_field t1 = true
    /\ (equal t1 t2 = Ok true <-> t1 = t2).
Proof.
  eexists _, _. split; [reflexivity|]. split; [reflexivity|].
  assert (constructed
            {| name := "notify"; requires := []; produces := Some "done";
               input := true; output := false; own := CNotify "done" |}) as Hnew
    by (by apply (new_notify (VStr "done"))).
  split; [exact Hnew|]. split; [exact Hnew|]. split; [reflexivity|].
  split; [reflexivity|].
  exact (equal_is_identity _ _ Hnew Hnew eq_refl eq_refl).
Defined.

Lemma sort_equal_ignores_reverse_witness :
  exists t t',
    TransformSort ["group"; "score"] (VBool true) = Ok t
    /\ TransformSort ["score"; "group"] (VBool false) = Ok t'
    /\ ["group"; "score"] ≡ₚ ["score"; "group"]
    /\ equal t t' = Ok true.
Proof.
  eexists _, _. split; [reflexivity|]. split; [reflexivity|].
  split; [apply Permutation_swap|].
  eapply (sort_equal_ignores_reverse ["group"; "score"] ["score"; "group"]
            true false); [reflexivity|reflexivity|apply Permutation_swap].
Defined.

Lemma flags_of_constructed_witness :
  exists t,
    TransformNotify (VStr "done") = Ok t
    /\ constructed t
    /\ produces t = Some "done" /\ input t = true /\ output t = false.
Proof.
  eexists. split; [reflexivity|].
  assert (constructed
            {| name := "notify"; requires := []; produces := Some "done";
               input := true; output := false; own := CNotify "done" |}) as Hnew
    by (by apply (new_notify (VStr "done"))).
  split; [exact Hnew|]. exact (flags_of_constructed _ Hnew).
Defined.

Lemma plot_spec_shape_witness :
  exists t label fields,
    TransformHistogram (VStr "chart") (VStr "score") (VNum (number 10)) = Ok t
    /\ plot_variant t
    /\ own t = CPlot label (JObj fields)
    /\ label <> ""
    /\ obj_get "name" fields = Some (JStr (name t)).
Proof.
  eexists.
  assert (plot_variant
            {| name := "histogram"; requires := []; produces := None;
               input := true; output := false;
               own := CPlot "chart" (Object_assign
                 [[("data", JObj [("values", JNull)]);
                   ("mark", JStr "bar");
                   ("encoding", JObj [
                      ("x", JObj [("bin", JObj [("maxbins", JNum (number 10))]);
                                  ("field", JStr "score");
                                  ("type", JStr "quantitative")]);
                      ("y", JObj [("aggregate", JStr "count");
                                  ("type", JStr "quantitative")]);
                      ("tooltip", JNull)])];
                  [("column", JStr "score"); ("bins", JNum (number 10))];
                  [("name", JStr "histogram")]]) |}) as Hplot.
  { right; right; right; left.
    exists (VStr "chart"), (VStr "score"), (VNum (number 10)). reflexivity. }
  destruct (plot_spec_shape _ Hplot)
    as (label & fields & Hown & Hlabel & _ & Hname & _).
  exists label, fields. split; [reflexivity|]. split; [exact Hplot|].
  split; [exact Hown|]. split; [exact Hlabel|exact Hname].
Defined.

Lemma scatter_color_channel_witness :
  exists t l fields encoding,
    TransformScatter (VStr "chart") (VStr "x") (VStr "y") VNull = Ok t
    /\ own t = CPlot l (JObj fields)
    /\ obj_get "encoding" fields = Some (JObj encoding)
    /\ obj_get "color" encoding = None.
Proof.
  eexists.
  edestruct (scatter_color_channel (VStr "chart") (VStr "x") (VStr "y") VNull _
               eq_refl)
    as (l & fields & encoding & Hown & Henc & _ & Hcolor).
  exists l, fields, encoding. split; [reflexivity|]. split; [exact Hown|].
  split; [exact Henc|exact Hcolor].
Defined.

Lemma equal_ignores_plot_and_test_parameters_witness :
  exists t1 t2,
    TransformBar (VStr "first") (VStr "group") (VStr "score") = Ok t1
    /\ TransformBar (VStr "second") (VStr "score") (VStr "group") = Ok t2
    /\ equal t1 t2 = Ok true.
Proof.
  eexists _, _. split; [reflexivity|]. split; [reflexivity|].
  eapply (proj1 (proj2 equal_ignores_plot_and_test_parameters)
            (VStr "first") (VStr "group") (VStr "score")
            (VStr "second") (VStr "score") (VStr "group")); reflexivity.
Defined.
